(** * certbot-azure: the Azure DNS authenticator's record manager

    A shallow embedding of [_AzureClient] from [certbot_azure/dns_azure.py]:
    zone discovery ([_find_managed_zone]), [add_txt_record] and
    [del_txt_record], together with the Python string and list primitives
    they rely on ([str.split], [str.join], negative-stop slicing).

    The remote DNS management service is external.  It is represented by a
    record of responses ([DnsManagementClient]); every function of the
    client runs in a small monad that collects the remote calls and the log
    lines it performs and ends either with a value or with a raised
    exception. *)

From Stdlib Require Import String Ascii List ZArith Lia Bool Arith Sorted.
Import ListNotations.

Local Open Scope string_scope.
Local Open Scope list_scope.

Set Implicit Arguments.

(* ================================================================== *)
(** ** Python string and list primitives *)
(* ================================================================== *)

Module Py.

(** [s.split(sep)] for a one-character separator: cuts at every
    occurrence, never returns the empty list ([''.split('.') == ['']]). *)
Fixpoint split (sep : ascii) (s : string) : list string :=
  match s with
  | EmptyString => [EmptyString]
  | String c s' =>
      if Ascii.eqb c sep then EmptyString :: split sep s'
      else match split sep s' with
           | piece :: rest => String c piece :: rest
           | [] => [String c EmptyString]
           end
  end.

(** [sep.join(pieces)]. *)
Fixpoint join (sep : string) (pieces : list string) : string :=
  match pieces with
  | [] => EmptyString
  | [p] => p
  | p :: rest => p ++ sep ++ join sep rest
  end.

(** Index normalisation of a slice bound, as CPython's
    [PySlice_AdjustIndices] does for a positive step: a negative bound
    counts from the end, and the outcome is clamped to [0, len]. *)
Definition adjust_index (len : nat) (i : Z) : nat :=
  let n := Z.of_nat len in
  let i' := if (i <? 0)%Z then (i + n)%Z else i in
  if (i' <? 0)%Z then 0
  else if (n <? i')%Z then len
  else Z.to_nat i'.

(** [l[start:stop]]. *)
Definition slice {A : Type} (l : list A) (start stop : Z) : list A :=
  let lo := adjust_index (length l) start in
  let hi := adjust_index (length l) stop in
  firstn (hi - lo) (skipn lo l).

(** [x in l] for a list of strings. *)
Definition contains (l : list string) (x : string) : bool :=
  existsb (String.eqb x) l.

(** [len(l)] as a Python integer. *)
Definition len {A : Type} (l : list A) : Z := Z.of_nat (length l).

End Py.

(* ================================================================== *)
(** ** Data model *)
(* ================================================================== *)

(** [azure.mgmt.dns.models.TxtRecord]: one TXT entry; its [value] is a list
    of strings. *)
Record TxtRecord : Type := mkTxtRecord { value : list string }.

(** [azure.mgmt.dns.models.RecordSet], restricted to the two fields the
    client reads or writes. *)
Record RecordSet : Type := mkRecordSet {
  ttl : Z;
  txt_records : list TxtRecord
}.

(** Arguments handed to [str.format]. *)
Inductive pyval : Type :=
| VStr (s : string)
| VStrList (l : list string).

(** A message built by [template.format(args)], kept unrendered. *)
Record message : Type := Format {
  template : string;
  format_args : list pyval
}.

(** The exception classes the module distinguishes.  [CloudError] is
    [msrestazure.azure_exceptions.CloudError]; [ResourceNotFoundError] is
    [azure.core.exceptions.ResourceNotFoundError]; [PluginError] is
    [certbot.errors.PluginError]; [OtherError] stands for an instance of any
    class that is none of these (and no subclass of them).  The string
    carried by a remote error is its [str()]. *)
Inductive exn : Type :=
| CloudError (text : string)
| ResourceNotFoundError (text : string)
| StopIteration
| PluginError (msg : message)
| OtherError (cls : string) (text : string).

Inductive level : Type := WARNING | ERROR.

(** What a run does to the outside world, in order. *)
Inductive event : Type :=
| ZonesList
| RecordSetsGet (resource_group zone name rtype : string)
| RecordSetsCreateOrUpdate (resource_group zone name rtype : string)
                           (record : RecordSet)
| RecordSetsDelete (resource_group zone name rtype : string)
| Log (lvl : level) (fmt : string) (e : exn).

(** One answer of the zone pager to [__next__]: an item (of which only
    [.name] is read) or a raised exception.  Past the end of the list the
    pager raises [StopIteration]. *)
Inductive pager_step : Type :=
| Yield (name : string)
| Fail (e : exn).

Definition pager : Type := list pager_step.

(** The remote service as seen through [self.dns_client]: what each
    operation answers.  [zones.list()] itself is lazy and returns the
    pager; requests happen while the pager is iterated. *)
Record DnsManagementClient : Type := mkDnsClient {
  zones_list : pager;
  record_sets_get : string -> string -> string -> string -> exn + RecordSet;
  record_sets_create_or_update :
    string -> string -> string -> string -> RecordSet -> exn + unit;
  record_sets_delete : string -> string -> string -> string -> exn + unit
}.

Record _AzureClient : Type := mkAzureClient {
  resource_group : string;
  dns_client : DnsManagementClient
}.

(* ================================================================== *)
(** ** The effect monad: a trace of events and a result or an exception *)
(* ================================================================== *)

Definition M (A : Type) : Type := (list event * (exn + A))%type.

Definition ret {A : Type} (a : A) : M A := ([], inr a).

Definition raise {A : Type} (e : exn) : M A := ([], inl e).

Definition bind {A B : Type} (m : M A) (k : A -> M B) : M B :=
  match m with
  | (t, inl e) => (t, inl e)
  | (t, inr a) => let (t', r) := k a in (t ++ t', r)
  end.

(** [try: m  except <classes matched by h>: h e].  The handler answers
    [None] for an exception no [except] clause matches, which then
    propagates. *)
Definition try_except {A : Type} (m : M A) (h : exn -> option (M A)) : M A :=
  match m with
  | (t, inl e) =>
      match h e with
      | Some k => let (t', r) := k in (t ++ t', r)
      | None => (t, inl e)
      end
  | (t, inr a) => (t, inr a)
  end.

(** A remote call: recorded, then answered. *)
Definition call {A : Type} (ev : event) (answer : exn + A) : M A :=
  ([ev], answer).

Definition log (lvl : level) (fmt : string) (e : exn) : M unit :=
  ([Log lvl fmt e], inr tt).

Definition trace {A : Type} (m : M A) : list event := fst m.
Definition outcome {A : Type} (m : M A) : exn + A := snd m.

Declare Scope py_scope.
Delimit Scope py_scope with py.
Notation "x <- m ;; k" := (bind m (fun x => k))
  (at level 61, m at next level, right associativity) : py_scope.
Notation "m ;;; k" := (bind m (fun _ => k))
  (at level 61, right associativity) : py_scope.
Local Open Scope py_scope.

(* ================================================================== *)
(** ** Zone discovery *)
(* ================================================================== *)

(** Modelled from the spec: [dns_common.base_domain_name_guesses] is imported
    from the certbot package and is not part of this repository.  Spec 4.2,
    step 2: candidate zone names are obtained by progressively stripping the
    leftmost label from the fqdn, that is every suffix starting at a label
    boundary, longest first. *)
Definition base_domain_name_guesses (domain : string) : list string :=
  let fragments := Py.split "." domain in
  map (fun i => Py.join "." (skipn i fragments)) (seq 0 (length fragments)).

(** The listing loop of [_find_managed_zone]:
<<
    while True:
        for zone in azure_zones:
            azure_zones_list.append(zone.name)
        azure_zones.next()
>>
    run under [except StopIteration: pass].  [for_zone_in] is the [for]
    statement, [zones_next] the call [azure_zones.next()] that follows it;
    when that call returns an item the item is dropped and the [while]
    starts over.  A [StopIteration] met by the [for] statement ends the
    [for]; one raised by [.next()] leaves the [try] block with the names
    gathered so far.  Every other exception propagates. *)
Fixpoint for_zone_in (azure_zones : pager) (azure_zones_list : list string)
  : exn + list string :=
  match azure_zones with
  | [] => inr azure_zones_list
  | Yield name :: rest => for_zone_in rest (azure_zones_list ++ [name])
  | Fail StopIteration :: rest => zones_next rest azure_zones_list
  | Fail e :: _ => inl e
  end
with zones_next (azure_zones : pager) (azure_zones_list : list string)
  : exn + list string :=
  match azure_zones with
  | [] => inr azure_zones_list
  | Yield _ :: rest => for_zone_in rest azure_zones_list
  | Fail StopIteration :: _ => inr azure_zones_list
  | Fail e :: _ => inl e
  end.

Definition _find_managed_zone (self : _AzureClient) (domain : string)
  : M string :=
  azure_zones_list <-
    try_except
      (call ZonesList (for_zone_in (zones_list (dns_client self)) []))
      (fun e =>
         match e with
         | CloudError text =>
             Some (log ERROR "Error finding zone: %s" e ;;;
                   raise (PluginError
                            (Format
                               "Error finding zone form the Azure DNS API: {0}"
                               [VStr text])))
         | _ => None
         end) ;;
  let zone_dns_name_guesses := base_domain_name_guesses domain in
  match find (Py.contains azure_zones_list) zone_dns_name_guesses with
  | Some zone_name => ret zone_name
  | None =>
      raise (PluginError
               (Format
                  "Unable to determine managed zone for {0} using zone names: {1}."
                  [VStr domain; VStrList zone_dns_name_guesses]))
  end.

(* ================================================================== *)
(** ** Record operations *)
(* ================================================================== *)

(** [".".join(domain.split('.')[0:-len(zone.split('.'))])] *)
Definition relative_record_name (domain zone : string) : string :=
  Py.join "." (Py.slice (Py.split "." domain) 0
                        (- Py.len (Py.split "." zone))).

Definition get (self : _AzureClient) (zone name rtype : string)
  : M RecordSet :=
  call (RecordSetsGet (resource_group self) zone name rtype)
       (record_sets_get (dns_client self) (resource_group self) zone name rtype).

Definition create_or_update (self : _AzureClient) (zone name rtype : string)
  (record : RecordSet) : M unit :=
  call (RecordSetsCreateOrUpdate (resource_group self) zone name rtype record)
       (record_sets_create_or_update (dns_client self) (resource_group self)
                                     zone name rtype record).

Definition delete (self : _AzureClient) (zone name rtype : string) : M unit :=
  call (RecordSetsDelete (resource_group self) zone name rtype)
       (record_sets_delete (dns_client self) (resource_group self)
                           zone name rtype).

(** [record.txt_records.append(entry)]: the record set is updated in place,
    its other fields stay as fetched. *)
Definition append_txt (record : RecordSet) (entry : TxtRecord) : RecordSet :=
  mkRecordSet (ttl record) (txt_records record ++ [entry]).

Definition add_txt_record (self : _AzureClient)
  (domain record_content : string) (record_ttl : Z) : M unit :=
  try_except
    (zone <- _find_managed_zone self domain ;;
     let name := relative_record_name domain zone in
     record <-
       try_except
         (record <- get self zone name "TXT" ;;
          ret (append_txt record (mkTxtRecord [record_content])))
         (fun e =>
            match e with
            | ResourceNotFoundError _ =>
                Some (ret (mkRecordSet record_ttl
                                       [mkTxtRecord [record_content]]))
            | _ => None
            end) ;;
     create_or_update self zone name "TXT" record)
    (fun e =>
       match e with
       | CloudError text =>
           Some (log ERROR "Encountered error adding TXT record: %s" e ;;;
                 raise (PluginError
                          (Format
                             "Error communicating with the Azure DNS API: {0}"
                             [VStr text])))
       | _ => None
       end).

(** [tr.value != [record_content]] *)
Definition value_differs (record_content : string) (tr : TxtRecord) : bool :=
  negb (if list_eq_dec string_dec (value tr) [record_content]
        then true else false).

(** [record.txt_records = [tr for tr in record.txt_records
                           if tr.value != [record_content]]] *)
Definition filter_txt (record : RecordSet) (record_content : string)
  : RecordSet :=
  mkRecordSet (ttl record)
              (filter (value_differs record_content) (txt_records record)).

(** [not record.txt_records] *)
Definition is_empty {A : Type} (l : list A) : bool :=
  match l with [] => true | _ => false end.

(** The [return] inside the inner handler leaves the function: the inner
    block answers [None] for it. *)
Definition del_txt_record (self : _AzureClient)
  (domain record_content : string) : M unit :=
  try_except
    (zone <- _find_managed_zone self domain ;;
     let name := relative_record_name domain zone in
     fetched <-
       try_except
         (record <- get self zone name "TXT" ;;
          ret (Some (filter_txt record record_content)))
         (fun e =>
            match e with
            | ResourceNotFoundError _ => Some (ret None)
            | _ => None
            end) ;;
     match fetched with
     | None => ret tt
     | Some record =>
         if is_empty (txt_records record)
         then delete self zone name "TXT"
         else create_or_update self zone name "TXT" record
     end)
    (fun e =>
       match e with
       | CloudError _ | PluginError _ =>
           Some (log WARNING "Encountered error deleting TXT record: %s" e)
       | _ => None
       end).

(* ================================================================== *)
(** ** Vocabulary of the statements *)
(* ================================================================== *)

(** A piece is a string that [split] leaves whole: it holds no separator. *)
Definition piece (sep : ascii) (p : string) : Prop := Py.split sep p = [p].

(** [c] is [d] itself or what follows one of [d]'s separators: a suffix of
    [d] that starts at a label boundary. *)
Definition label_suffix (sep : ascii) (c d : string) : Prop :=
  c = d \/ exists p, d = (p ++ String sep c)%string.

(** The joins of all non-empty tails of a list of pieces, longest first. *)
Fixpoint suffix_joins (sep : ascii) (l : list string) : list string :=
  match l with
  | [] => []
  | _ :: rest => Py.join (String sep EmptyString) l :: suffix_joins sep rest
  end.

(** [longer a b]: [b] is strictly shorter than [a]. *)
Definition longer (a b : string) : Prop := String.length b < String.length a.

(** The remote calls of a trace, log lines left out. *)
Definition is_remote_call (ev : event) : bool :=
  match ev with
  | Log _ _ _ => false
  | _ => true
  end.

Definition remote_calls (t : list event) : list event :=
  filter is_remote_call t.

(** The calls that change the remote record sets. *)
Definition is_mutation (ev : event) : bool :=
  match ev with
  | RecordSetsCreateOrUpdate _ _ _ _ _ | RecordSetsDelete _ _ _ _ => true
  | _ => false
  end.

(** The record set a record operation addresses. *)
Definition record_target (ev : event)
  : option (string * string * string * string) :=
  match ev with
  | RecordSetsGet g z n t
  | RecordSetsCreateOrUpdate g z n t _
  | RecordSetsDelete g z n t => Some (g, z, n, t)
  | _ => None
  end.

(** The error of a discovery that found no zone. *)
Definition no_zone_error (domain : string) : exn :=
  PluginError
    (Format "Unable to determine managed zone for {0} using zone names: {1}."
            [VStr domain; VStrList (base_domain_name_guesses domain)]).

Definition TxtRecord_eq_dec (a b : TxtRecord) : {a = b} + {a <> b}.
Proof.
  decide equality. apply (list_eq_dec string_dec).
Defined.

(** Sample remote services, used to run the client on concrete inputs:
    two zones are listed; [record_sets.get] answers [fetched] for every
    record set; the remaining operations answer [upserted] and
    [deleted]. *)
Definition sample_zones : pager :=
  [Yield "example.com"; Yield "sub.example.com"].

Definition sample_client (listing : pager) (fetched : exn + RecordSet)
  (upserted deleted : exn + unit) : _AzureClient :=
  mkAzureClient "certbot-rg"
    (mkDnsClient listing
                 (fun _ _ _ _ => fetched)
                 (fun _ _ _ _ _ => upserted)
                 (fun _ _ _ _ => deleted)).

Definition sample_record : RecordSet :=
  mkRecordSet 3600 [mkTxtRecord ["token-1"]; mkTxtRecord ["token-2"]].


(** The error [_find_managed_zone] raises for a [CloudError] met while
    listing. *)
Definition listing_error (text : string) : exn :=
  PluginError
    (Format "Error finding zone form the Azure DNS API: {0}" [VStr text]).

(** A remote service all of whose failures are [CloudError]s, but for
    [record_sets.get], which may also report that the record set is not
    found. *)
Definition is_cloud_error (e : exn) : Prop := exists text, e = CloudError text.

Definition step_fails_cloud (s : pager_step) : Prop :=
  match s with
  | Yield _ => True
  | Fail e => is_cloud_error e
  end.

Definition only_cloud_errors (c : DnsManagementClient) : Prop :=
  Forall step_fails_cloud (zones_list c) /\
  (forall g z n t e,
      record_sets_get c g z n t = inl e ->
      is_cloud_error e \/ exists text, e = ResourceNotFoundError text) /\
  (forall g z n t r e,
      record_sets_create_or_update c g z n t r = inl e -> is_cloud_error e) /\
  (forall g z n t e, record_sets_delete c g z n t = inl e -> is_cloud_error e).

(* ================================================================== *)
(** ** The authenticator and the construction of the client *)
(* ================================================================== *)

(** [errors.PluginError('...')] with a literal message. *)
Definition Literal (text : string) : message := Format text [].

(** [KeyError(key)], as [account_json[key]] raises it for a missing key. *)
Definition KeyError (key : string) : exn := OtherError "KeyError" key.

(** The two settings the module reads: [self.conf('resource-group')] and
    [self.conf('credentials')]; [None] is Python's [None]. *)
Record Config : Type := mkConfig {
  conf_resource_group : option string;
  conf_credentials : option string
}.

(** What [_setup_credentials] does to its surroundings. *)
Inductive setup_event : Type :=
| ConfigureFile (key label : string)
| ValidateFilePermissions (path : option string).

(** What [_setup_credentials] finds around it: the configuration, the
    names defined in [os.environ], and the answers of the two helpers of
    the plugin host, [self._configure_file] (which raises, or leaves
    [self.conf(key)] with the value it answers) and
    [dns_common.validate_file_permissions]. *)
Record Host : Type := mkHost {
  config : Config;
  environ : list string;
  _configure_file : string -> string -> exn + option string;
  validate_file_permissions : option string -> exn + unit
}.

Definition is_none {A : Type} (o : option A) : bool :=
  match o with None => true | Some _ => false end.

Definition no_resource_group_error : exn :=
  PluginError
    (Literal "Please specify a resource group using --dns-azure-resource-group <RESOURCEGROUP>").

Definition no_credentials_error : exn :=
  PluginError
    (Literal "Please specify credentials file using the AZURE_AUTH_LOCATION environment variable or using --dns-azure-credentials <file>").

(** [Authenticator._setup_credentials]; the configuration it leaves is
    returned on success. *)
Definition _setup_credentials (h : Host)
  : list setup_event * (exn + Config) :=
  if is_none (conf_resource_group (config h)) then
    ([], inl no_resource_group_error)
  else if is_none (conf_credentials (config h))
          && negb (Py.contains (environ h) "AZURE_AUTH_LOCATION") then
    ([], inl no_credentials_error)
  else
    let label := "path to Azure DNS service account JSON file" in
    match _configure_file h "credentials" label with
    | inl e => ([ConfigureFile "credentials" label], inl e)
    | inr credentials =>
        match validate_file_permissions h credentials with
        | inl e =>
            ([ConfigureFile "credentials" label;
              ValidateFilePermissions credentials], inl e)
        | inr _ =>
            ([ConfigureFile "credentials" label;
              ValidateFilePermissions credentials],
             inr (mkConfig (conf_resource_group (config h)) credentials))
        end
    end.

(** [Authenticator.ttl] *)
Definition Authenticator_ttl : Z := 60.

(** The keyword arguments of [ClientSecretCredential(...)]. *)
Record CredentialArgs : Type := mkCredentialArgs {
  tenant_id : string;
  client_id : string;
  client_secret : string;
  authority : string
}.

(** The arguments of [DnsManagementClient(...)]; the credential is stood
    for by the arguments it was built from. *)
Record ClientArgs : Type := mkClientArgs {
  credential : CredentialArgs;
  subscription_id : string;
  base_url : string;
  credential_scopes : list string
}.

(** The libraries [_AzureClient.__init__] calls: [open] and [json.load] on
    the credential path (the file is taken to hold a JSON object whose
    values are strings; the answer is the lookup of that object), and the
    two constructors of the Azure SDK, which raise or build. *)
Record Sdk : Type := mkSdk {
  load_json : option string -> exn + (string -> option string);
  ClientSecretCredential_init : CredentialArgs -> option exn;
  DnsManagementClient_init : ClientArgs -> exn + DnsManagementClient
}.

(** Sequencing of steps that may raise, without trace. *)
Definition and_then {A B : Type} (m : exn + A) (k : A -> exn + B)
  : exn + B :=
  match m with
  | inl e => inl e
  | inr a => k a
  end.

Notation "x <~ m ;; k" := (and_then m (fun x => k))
  (at level 61, m at next level, right associativity) : py_scope.

(** [account_json[key]] *)
Definition getitem (account_json : string -> option string) (key : string)
  : exn + string :=
  match account_json key with
  | Some v => inr v
  | None => inl (KeyError key)
  end.

(** [_AzureClient.__init__]: the arguments are evaluated left to right, the
    credential being built before the subscription is looked up. *)
Definition _AzureClient_init (sdk : Sdk) (resource_group : string)
  (auth_path : option string) : exn + _AzureClient :=
  account_json <~ load_json sdk auth_path ;;
  tenant <~ getitem account_json "tenantId" ;;
  client <~ getitem account_json "clientId" ;;
  secret <~ getitem account_json "clientSecret" ;;
  authority <~ getitem account_json "activeDirectoryEndpointUrl" ;;
  let credential := mkCredentialArgs tenant client secret authority in
  match ClientSecretCredential_init sdk credential with
  | Some e => inl e
  | None =>
      subscription <~ getitem account_json "subscriptionId" ;;
      base <~ getitem account_json "resourceManagerEndpointUrl" ;;
      scope <~ getitem account_json "resourceManagerEndpointUrl" ;;
      dns <~ DnsManagementClient_init sdk
               (mkClientArgs credential subscription base
                             [(scope ++ "/.default")%string]) ;;
      inr (mkAzureClient resource_group dns)
  end.

(** [Authenticator._get_azure_client].  [self.conf('resource-group')] is a
    string here: [_setup_credentials] refuses [None]. *)
Definition _get_azure_client (sdk : Sdk) (resource_group : string)
  (credentials : option string) : exn + _AzureClient :=
  _AzureClient_init sdk resource_group credentials.

(** [Authenticator._perform] and [Authenticator._cleanup]; a client is
    built at every call. *)
Definition _perform (sdk : Sdk) (resource_group : string)
  (credentials : option string) (domain validation_name validation : string)
  : M unit :=
  match _get_azure_client sdk resource_group credentials with
  | inl e => raise e
  | inr azure_client =>
      add_txt_record azure_client validation_name validation Authenticator_ttl
  end.

Definition _cleanup (sdk : Sdk) (resource_group : string)
  (credentials : option string) (domain validation_name validation : string)
  : M unit :=
  match _get_azure_client sdk resource_group credentials with
  | inl e => raise e
  | inr azure_client => del_txt_record azure_client validation_name validation
  end.

(** The keys [__init__] reads, in the order it first reads them. *)
Definition account_keys : list string :=
  ["tenantId"; "clientId"; "clientSecret"; "activeDirectoryEndpointUrl";
   "subscriptionId"; "resourceManagerEndpointUrl"].

(* ================================================================== *)
(** ** Further vocabulary and samples *)
(* ================================================================== *)

(** The exceptions the handler of [del_txt_record] catches, and the one the
    handlers of [add_txt_record] and [_find_managed_zone] catch. *)
Definition caught_on_remove (e : exn) : bool :=
  match e with
  | CloudError _ | PluginError _ => true
  | _ => false
  end.

Definition is_CloudError (e : exn) : bool :=
  match e with
  | CloudError _ => true
  | _ => false
  end.

Definition is_ResourceNotFoundError (e : exn) : bool :=
  match e with
  | ResourceNotFoundError _ => true
  | _ => false
  end.

Definition is_StopIteration (e : exn) : bool :=
  match e with
  | StopIteration => true
  | _ => false
  end.

(** The error [add_txt_record] raises for a [CloudError] of a record
    operation. *)
Definition communication_error (text : string) : exn :=
  PluginError
    (Format "Error communicating with the Azure DNS API: {0}" [VStr text]).

(** What reaches the caller of [_find_managed_zone] and of
    [add_txt_record] for an exception [e] raised underneath. *)
Definition surfaced_by_discovery (e : exn) : exn :=
  match e with
  | CloudError text => listing_error text
  | _ => e
  end.

Definition surfaced_by_add (e : exn) : exn :=
  match e with
  | CloudError text => communication_error text
  | _ => e
  end.

(** A sample credential file and sample libraries around it. *)
Definition sample_account (key : string) : option string :=
  if String.eqb key "tenantId" then Some "tenant-0"
  else if String.eqb key "clientId" then Some "client-0"
  else if String.eqb key "clientSecret" then Some "secret-0"
  else if String.eqb key "activeDirectoryEndpointUrl"
       then Some "https://login.microsoftonline.com"
  else if String.eqb key "subscriptionId" then Some "subscription-0"
  else if String.eqb key "resourceManagerEndpointUrl"
       then Some "https://management.azure.com"
  else None.

Definition sample_sdk (account : exn + (string -> option string))
  (remote : DnsManagementClient) : Sdk :=
  mkSdk (fun _ => account) (fun _ => None) (fun _ => inr remote).

Definition sample_remote (fetched : exn + RecordSet) : DnsManagementClient :=
  mkDnsClient sample_zones
              (fun _ _ _ _ => fetched)
              (fun _ _ _ _ _ => inr tt)
              (fun _ _ _ _ => inr tt).

Definition sample_host (resource_group credentials : option string)
  (env : list string) : Host :=
  mkHost (mkConfig resource_group credentials) env
         (fun _ _ => inr (Some "/etc/letsencrypt/azure.json"))
         (fun _ => inr tt).

(* ================================================================== *)
(** ** Proof automation *)
(* ================================================================== *)

(** Exposes the trace and the outcome of a run. *)
Ltac unfold_run :=
  unfold get, create_or_update, delete, call, log, try_except, bind, raise,
    ret, trace, outcome in *.

(** Case analysis on an answer of the remote service, exception class by
    exception class. *)
Ltac answer x :=
  let e := fresh "e" in destruct x as [e|?]; [destruct e|].

(** Splits on every remaining answer of the remote service and on the
    emptiness test of [del_txt_record]. *)
Ltac split_answers :=
  repeat match goal with
         | |- context [match ?x with inl _ => _ | inr _ => _ end] =>
             let e := fresh "e" in
             destruct x as [e|?] eqn:?; [destruct e|]
         | |- context [if is_empty ?l then _ else _] =>
             destruct (is_empty l) eqn:?
         end;
  cbn [fst snd app].

(** Settles a goal about every event of an explicit trace. *)
Ltac each_event :=
  let ev := fresh "ev" in
  let tgt := fresh "tgt" in
  let Hin := fresh "Hin" in
  let Ht := fresh "Ht" in
  intros ev tgt Hin Ht; simpl in Hin;
  repeat (destruct Hin as [Hin|Hin]; [subst ev; simpl in Ht; congruence|]);
  contradiction.

(* ================================================================== *)
(** ** Facts about strings, [split] and [join] *)
(* ================================================================== *)

Section StringFacts.

Lemma append_assoc (a b c : string) :
  ((a ++ b) ++ c = a ++ (b ++ c))%string.
Proof.
  induction a as [|x a IH]; simpl; [reflexivity | now rewrite IH].
Qed.

Lemma length_append (a b : string) :
  String.length (a ++ b)%string = String.length a + String.length b.
Proof.
  induction a as [|x a IH]; simpl; [reflexivity | now rewrite IH].
Qed.

Variable sep : ascii.

Local Abbreviation sep_str := (String sep EmptyString).

Lemma split_not_nil (s : string) : Py.split sep s <> [].
Proof.
  destruct s as [|c s]; simpl; [discriminate|].
  destruct (Ascii.eqb c sep); [discriminate|].
  destruct (Py.split sep s); discriminate.
Qed.

(** Cutting at a separator is cutting each side on its own. *)
Lemma split_app_sep (a b : string) :
  Py.split sep (a ++ String sep b)%string = Py.split sep a ++ Py.split sep b.
Proof.
  induction a as [|c a IH]; simpl.
  - now rewrite Ascii.eqb_refl.
  - destruct (Ascii.eqb c sep); [now rewrite IH|].
    rewrite IH.
    destruct (Py.split sep a) as [|piece rest] eqn:E; [|reflexivity].
    now apply split_not_nil in E.
Qed.

Lemma join_cons (p : string) (rest : list string) :
  rest <> [] ->
  Py.join sep_str (p :: rest) = (p ++ String sep (Py.join sep_str rest))%string.
Proof.
  destruct rest; [congruence | reflexivity].
Qed.

Lemma join_split (s : string) : Py.join sep_str (Py.split sep s) = s.
Proof.
  induction s as [|c s IH]; simpl; [reflexivity|].
  destruct (Ascii.eqb_spec c sep) as [->|Hc].
  - rewrite join_cons by apply split_not_nil. now rewrite IH.
  - destruct (Py.split sep s) as [|piece rest] eqn:E.
    + now apply split_not_nil in E.
    + destruct rest as [|q rest]; simpl in *; now rewrite <- IH.
Qed.

Lemma split_pieces (s : string) : Forall (piece sep) (Py.split sep s).
Proof.
  induction s as [|c s IH]; simpl.
  - now constructor.
  - destruct (Ascii.eqb c sep) eqn:Ec.
    + constructor; [reflexivity | exact IH].
    + destruct (Py.split sep s) as [|p rest] eqn:E; [now apply split_not_nil in E|].
      inversion IH as [|? ? Hp Hrest]; subst.
      constructor; [|exact Hrest].
      unfold piece in *. simpl. now rewrite Ec, Hp.
Qed.

Lemma split_join (l : list string) :
  l <> [] -> Forall (piece sep) l -> Py.split sep (Py.join sep_str l) = l.
Proof.
  induction l as [|p rest IH]; [congruence|].
  intros _ H. inversion H as [|? ? Hp Hrest]; subst.
  destruct rest as [|q rest]; [exact Hp|].
  rewrite join_cons by discriminate.
  rewrite split_app_sep, Hp, IH; [reflexivity | discriminate | exact Hrest].
Qed.

Lemma join_app (l1 l2 : list string) :
  l1 <> [] -> l2 <> [] ->
  Py.join sep_str (l1 ++ l2)
  = (Py.join sep_str l1 ++ String sep (Py.join sep_str l2))%string.
Proof.
  induction l1 as [|p l1 IH]; [congruence|].
  intros _ H2. destruct l1 as [|q l1].
  - simpl app. now rewrite join_cons.
  - change ((p :: q :: l1) ++ l2) with (p :: ((q :: l1) ++ l2)).
    rewrite !join_cons by discriminate.
    rewrite IH by (discriminate || assumption).
    now rewrite append_assoc.
Qed.

Lemma map_skipn_suffix_joins (l : list string) :
  map (fun i => Py.join sep_str (skipn i l)) (seq 0 (length l))
  = suffix_joins sep l.
Proof.
  induction l as [|p l IH]; [reflexivity|].
  cbn [length seq map suffix_joins]. f_equal.
  rewrite <- seq_shift, map_map. exact IH.
Qed.

Lemma suffix_joins_label_suffix (l : list string) (c : string) :
  In c (suffix_joins sep l) -> label_suffix sep c (Py.join sep_str l).
Proof.
  induction l as [|p rest IH]; [contradiction|].
  intros [<-|Hin]; [now left|].
  assert (Hne : rest <> []) by (destruct rest; [contradiction | discriminate]).
  right. rewrite join_cons by exact Hne.
  destruct (IH Hin) as [->|[q ->]].
  - now exists p.
  - exists (p ++ String sep q)%string. now rewrite append_assoc.
Qed.

Lemma suffix_joins_app (l1 l2 : list string) :
  l2 <> [] -> In (Py.join sep_str l2) (suffix_joins sep (l1 ++ l2)).
Proof.
  intros H2. induction l1 as [|p l1 IH].
  - destruct l2; [congruence | now left].
  - right. exact IH.
Qed.

Lemma label_suffix_suffix_joins (c d : string) :
  label_suffix sep c d -> In c (suffix_joins sep (Py.split sep d)).
Proof.
  intros [->|[p ->]].
  - destruct (Py.split sep d) as [|q rest] eqn:E; [now apply split_not_nil in E|].
    left. rewrite <- E. apply join_split.
  - rewrite split_app_sep. rewrite <- (join_split c) at 1.
    apply suffix_joins_app, split_not_nil.
Qed.

Lemma suffix_joins_length (l : list string) (c : string) :
  In c (suffix_joins sep l) -> String.length c <= String.length (Py.join sep_str l).
Proof.
  induction l as [|p rest IH]; [contradiction|].
  intros [<-|Hin]; [lia|].
  assert (Hne : rest <> []) by (destruct rest; [contradiction | discriminate]).
  rewrite join_cons by exact Hne. rewrite length_append. simpl.
  specialize (IH Hin). lia.
Qed.

Lemma suffix_joins_sorted (l : list string) :
  StronglySorted longer (suffix_joins sep l).
Proof.
  induction l as [|p rest IH]; [constructor|].
  cbn [suffix_joins]. constructor; [exact IH|].
  apply Forall_forall. intros c Hin. unfold longer.
  assert (Hne : rest <> []) by (destruct rest; [contradiction | discriminate]).
  rewrite join_cons by exact Hne. rewrite length_append. simpl.
  apply suffix_joins_length in Hin. lia.
Qed.

End StringFacts.

(* ================================================================== *)
(** ** Zone discovery: candidates and first match *)
(* ================================================================== *)

Lemma contains_In (l : list string) (x : string) :
  Py.contains l x = true <-> In x l.
Proof.
  unfold Py.contains. rewrite existsb_exists. split.
  - intros (y & Hy & E). apply String.eqb_eq in E. now subst.
  - intros H. exists x. split; [exact H | apply String.eqb_refl].
Qed.

Lemma find_first {A : Type} (f : A -> bool) (l : list A) (x : A) :
  find f l = Some x <->
  exists before after,
    l = before ++ x :: after /\ f x = true /\
    forall y, In y before -> f y = false.
Proof.
  induction l as [|a l IH]; simpl.
  - split; [discriminate|]. intros (b & c & E & _). now destruct b.
  - destruct (f a) eqn:Fa.
    + split.
      * intros [= ->]. exists [], l. repeat split; [exact Fa | contradiction].
      * intros (b & c & E & Fx & Hb). destruct b as [|b0 b].
        -- now injection E as -> _.
        -- injection E as <- _. rewrite (Hb a) in Fa; [discriminate | now left].
    + rewrite IH. split.
      * intros (b & c & -> & Fx & Hb). exists (a :: b), c.
        repeat split; [exact Fx|]. intros y [<-|Hy]; [exact Fa | now apply Hb].
      * intros (b & c & E & Fx & Hb). destruct b as [|b0 b].
        -- injection E as -> _. congruence.
        -- injection E as _ ->. exists b, c.
           repeat split; [exact Fx|]. intros y Hy. apply Hb. now right.
Qed.

Lemma guesses_suffix_joins (domain : string) :
  base_domain_name_guesses domain = suffix_joins "." (Py.split "." domain).
Proof.
  unfold base_domain_name_guesses. apply map_skipn_suffix_joins.
Qed.

Lemma guesses_label_suffix (domain c : string) :
  In c (base_domain_name_guesses domain) <-> label_suffix "." c domain.
Proof.
  rewrite guesses_suffix_joins. split.
  - intros H. apply suffix_joins_label_suffix in H. now rewrite join_split in H.
  - apply label_suffix_suffix_joins.
Qed.

Lemma guesses_sorted (domain : string) :
  StronglySorted longer (base_domain_name_guesses domain).
Proof.
  rewrite guesses_suffix_joins. apply suffix_joins_sorted.
Qed.

Lemma sorted_after {A : Type} (R : A -> A -> Prop) (before after : list A)
  (x y : A) :
  StronglySorted R (before ++ x :: after) -> In y after -> R x y.
Proof.
  induction before as [|b before IH]; simpl; intros H Hy.
  - inversion H as [|? ? _ Hall]; subst.
    rewrite Forall_forall in Hall. now apply Hall.
  - inversion H; subst. now apply IH.
Qed.

Lemma find_managed_zone_listed (self : _AzureClient) (domain : string)
  (zones : list string) :
  for_zone_in (zones_list (dns_client self)) [] = inr zones ->
  _find_managed_zone self domain
  = ([ZonesList],
     match find (Py.contains zones) (base_domain_name_guesses domain) with
     | Some zone_name => inr zone_name
     | None => inl (no_zone_error domain)
     end).
Proof.
  intros H. unfold _find_managed_zone, call, try_except, bind. rewrite H.
  now destruct (find _ _).
Qed.

(** Claim C1.  Zone discovery tries the suffixes of the fqdn that start at a
    label boundary (the fqdn itself included), longest first, and returns
    the first of them that is equal to a listed zone name.  Hence, whenever
    some listed zone is such a suffix, discovery succeeds with a listed
    zone that is such a suffix and every other listed one is strictly
    shorter. *)
Theorem find_managed_zone_longest_first (self : _AzureClient)
  (domain : string) (zones : list string) :
  for_zone_in (zones_list (dns_client self)) [] = inr zones ->
  (forall c, In c (base_domain_name_guesses domain)
             <-> label_suffix "." c domain) /\
  StronglySorted longer (base_domain_name_guesses domain) /\
  (forall z, outcome (_find_managed_zone self domain) = inr z <->
             exists before after,
               base_domain_name_guesses domain = before ++ z :: after /\
               In z zones /\
               forall c, In c before -> ~ In c zones) /\
  (forall z', label_suffix "." z' domain -> In z' zones ->
              exists z, outcome (_find_managed_zone self domain) = inr z /\
                        In z zones /\ label_suffix "." z domain /\
                        (z' = z \/ longer z z')).
Proof.
  intros Hlist.
  assert (Hfirst :
    forall z, outcome (_find_managed_zone self domain) = inr z <->
              exists before after,
                base_domain_name_guesses domain = before ++ z :: after /\
                In z zones /\
                forall c, In c before -> ~ In c zones).
  { intros z. rewrite (find_managed_zone_listed self domain Hlist).
    unfold outcome; simpl.
    transitivity
      (find (Py.contains zones) (base_domain_name_guesses domain) = Some z).
    - destruct (find _ _); split; congruence.
    - rewrite find_first. split.
      + intros (b & a & E & Hz & Hb). exists b, a.
        split; [exact E|]. split; [now apply contains_In|].
        intros c Hc Hin. apply contains_In in Hin.
        rewrite (Hb c Hc) in Hin. discriminate.
      + intros (b & a & E & Hz & Hb). exists b, a.
        split; [exact E|]. split; [now apply contains_In|].
        intros c Hc. destruct (Py.contains zones c) eqn:Ec; [|reflexivity].
        apply contains_In in Ec. now destruct (Hb c Hc). }
  split; [apply guesses_label_suffix|].
  split; [apply guesses_sorted|].
  split; [exact Hfirst|].
  intros z' Hsuf Hin.
  apply guesses_label_suffix in Hsuf.
  destruct (find (Py.contains zones) (base_domain_name_guesses domain))
    as [z|] eqn:Ef.
  - exists z.
    assert (Hz : outcome (_find_managed_zone self domain) = inr z).
    { rewrite (find_managed_zone_listed self domain Hlist).
      unfold outcome; simpl. now rewrite Ef. }
    split; [exact Hz|].
    apply Hfirst in Hz. destruct Hz as (b & a & E & Hzin & Hb).
    split; [exact Hzin|].
    split.
    + apply guesses_label_suffix. rewrite E. apply in_or_app. right. now left.
    + rewrite E in Hsuf. apply in_app_or in Hsuf.
      destruct Hsuf as [Hb'|[->|Ha]].
      * now destruct (Hb z' Hb').
      * now left.
      * right. pose proof (guesses_sorted domain) as Hs. rewrite E in Hs.
        eapply sorted_after; [exact Hs | exact Ha].
  - apply find_none with (x := z') in Ef; [|exact Hsuf].
    apply contains_In in Hin. congruence.
Qed.

Lemma find_managed_zone_longest_first_witness :
  outcome (_find_managed_zone
             (sample_client sample_zones (inr sample_record) (inr tt) (inr tt))
             "_acme-challenge.sub.example.com")
  = inr "sub.example.com".
Proof.
  apply (proj1 (proj2 (proj2
           (@find_managed_zone_longest_first
              (sample_client sample_zones (inr sample_record) (inr tt) (inr tt))
              "_acme-challenge.sub.example.com"
              ["example.com"; "sub.example.com"] eq_refl)))).
  exists ["_acme-challenge.sub.example.com"], ["example.com"; "com"].
  split; [reflexivity|]. split; [simpl; auto|].
  intros c [<-|[]] [H|[H|[]]]; discriminate.
Defined.

(* ================================================================== *)
(** ** The relative record name *)
(* ================================================================== *)

Lemma adjust_index_0 (n : nat) : Py.adjust_index n 0 = 0.
Proof.
  unfold Py.adjust_index. simpl.
  destruct (Z.of_nat n <? 0)%Z eqn:E; [|reflexivity].
  apply Z.ltb_lt in E. lia.
Qed.

Lemma adjust_index_neg (n k : nat) :
  0 < k -> Py.adjust_index n (- Z.of_nat k) = n - k.
Proof.
  intros Hk. unfold Py.adjust_index.
  destruct (- Z.of_nat k <? 0)%Z eqn:E1; [|apply Z.ltb_ge in E1; lia].
  destruct (- Z.of_nat k + Z.of_nat n <? 0)%Z eqn:E2.
  - apply Z.ltb_lt in E2. lia.
  - apply Z.ltb_ge in E2.
    destruct (Z.of_nat n <? - Z.of_nat k + Z.of_nat n)%Z eqn:E3.
    + apply Z.ltb_lt in E3. lia.
    + lia.
Qed.

(** [l[0:-k]] keeps all but the last [k] items. *)
Lemma slice_0_neg {A : Type} (l : list A) (k : nat) :
  0 < k -> Py.slice l 0 (- Z.of_nat k) = firstn (length l - k) l.
Proof.
  intros Hk. unfold Py.slice.
  rewrite adjust_index_0, (adjust_index_neg _ Hk). simpl skipn.
  now rewrite Nat.sub_0_r.
Qed.

Lemma Forall_skipn {A : Type} (P : A -> Prop) (n : nat) (l : list A) :
  Forall P l -> Forall P (skipn n l).
Proof.
  revert l. induction n as [|n IH]; intros l H; [exact H|].
  destruct l as [|a l]; [constructor|]. inversion H; subst. now apply IH.
Qed.

(** For the zone made of the labels of [domain] from position [i] on, the
    relative name is made of the labels before position [i]. *)
Lemma relative_record_name_at (domain : string) (i : nat) :
  i < length (Py.split "." domain) ->
  relative_record_name domain (Py.join "." (skipn i (Py.split "." domain)))
  = Py.join "." (firstn i (Py.split "." domain)).
Proof.
  intros Hi. unfold relative_record_name, Py.len.
  set (parts := Py.split "." domain) in *.
  assert (Hne : skipn i parts <> []).
  { intros E. apply (f_equal (@length _)) in E.
    rewrite length_skipn in E. cbn [length] in E. lia. }
  rewrite split_join;
    [| exact Hne | apply Forall_skipn, split_pieces].
  rewrite slice_0_neg by (rewrite length_skipn; lia).
  rewrite length_skipn. f_equal. f_equal. lia.
Qed.

Lemma guesses_at (domain zone : string) :
  In zone (base_domain_name_guesses domain) ->
  exists i, i < length (Py.split "." domain) /\
            zone = Py.join "." (skipn i (Py.split "." domain)).
Proof.
  unfold base_domain_name_guesses. intros H.
  apply in_map_iff in H. destruct H as (i & <- & Hi).
  apply in_seq in Hi. exists i. split; [lia | reflexivity].
Qed.

Lemma relative_record_name_spec (domain zone : string) :
  In zone (base_domain_name_guesses domain) ->
  let name := relative_record_name domain zone in
  (exists labels zone_labels,
      Py.split "." domain = labels ++ zone_labels /\
      zone = Py.join "." zone_labels /\
      name = Py.join "." labels) /\
  ((zone = domain /\ name = EmptyString) \/
   domain = (name ++ "." ++ zone)%string).
Proof.
  intros H name. destruct (guesses_at _ _ H) as (i & Hi & Ez).
  assert (En : name = Py.join "." (firstn i (Py.split "." domain))).
  { subst name zone. now apply relative_record_name_at. }
  split.
  - exists (firstn i (Py.split "." domain)), (skipn i (Py.split "." domain)).
    now rewrite firstn_skipn.
  - destruct i as [|i].
    + left. rewrite En. split; [|reflexivity].
      rewrite Ez. simpl skipn. apply join_split.
    + right. rewrite En, Ez.
      rewrite <- (join_split "." domain) at 1.
      rewrite <- (firstn_skipn (S i) (Py.split "." domain)) at 1.
      apply join_app.
      * intros E. apply (f_equal (@length _)) in E.
        rewrite length_firstn in E. cbn [length] in E. lia.
      * intros E. apply (f_equal (@length _)) in E.
        rewrite length_skipn in E. cbn [length] in E. lia.
Qed.

(** A successful discovery has listed the zones, logged nothing, and
    returns one of the candidates. *)
Lemma find_managed_zone_ok (self : _AzureClient) (domain zone : string) :
  outcome (_find_managed_zone self domain) = inr zone ->
  _find_managed_zone self domain = ([ZonesList], inr zone) /\
  In zone (base_domain_name_guesses domain).
Proof.
  unfold _find_managed_zone, outcome, call, try_except, bind, log, raise, ret.
  destruct (for_zone_in _ _) as [e|zones].
  - destruct e; simpl; discriminate.
  - destruct (find _ _) as [z|] eqn:Ef; simpl; [|discriminate].
    intros [= ->]. split; [reflexivity|].
    now apply find_some in Ef.
Qed.

(* ================================================================== *)
(** ** Running [add_txt_record] and [del_txt_record] *)
(* ================================================================== *)

(** [add_txt_record] after a successful discovery, by the answer of
    [record_sets.get]. *)
Lemma add_txt_record_found (self : _AzureClient)
  (domain record_content : string) (record_ttl : Z) (zone : string)
  (record : RecordSet) :
  outcome (_find_managed_zone self domain) = inr zone ->
  record_sets_get (dns_client self) (resource_group self) zone
                  (relative_record_name domain zone) "TXT" = inr record ->
  remote_calls (trace (add_txt_record self domain record_content record_ttl))
  = [ZonesList;
     RecordSetsGet (resource_group self) zone
                   (relative_record_name domain zone) "TXT";
     RecordSetsCreateOrUpdate (resource_group self) zone
                   (relative_record_name domain zone) "TXT"
                   (mkRecordSet (ttl record)
                      (txt_records record ++ [mkTxtRecord [record_content]]))].
Proof.
  intros Hz Hget. apply find_managed_zone_ok in Hz. destruct Hz as [Hz _].
  unfold add_txt_record. rewrite Hz. unfold_run. rewrite Hget.
  unfold append_txt.
  answer (record_sets_create_or_update (dns_client self) (resource_group self)
            zone (relative_record_name domain zone) "TXT"
            {| ttl := ttl record;
               txt_records := txt_records record
                              ++ [{| value := [record_content] |}] |});
    reflexivity.
Qed.

Lemma add_txt_record_not_found (self : _AzureClient)
  (domain record_content : string) (record_ttl : Z) (zone text : string) :
  outcome (_find_managed_zone self domain) = inr zone ->
  record_sets_get (dns_client self) (resource_group self) zone
                  (relative_record_name domain zone) "TXT"
  = inl (ResourceNotFoundError text) ->
  remote_calls (trace (add_txt_record self domain record_content record_ttl))
  = [ZonesList;
     RecordSetsGet (resource_group self) zone
                   (relative_record_name domain zone) "TXT";
     RecordSetsCreateOrUpdate (resource_group self) zone
                   (relative_record_name domain zone) "TXT"
                   (mkRecordSet record_ttl [mkTxtRecord [record_content]])].
Proof.
  intros Hz Hget. apply find_managed_zone_ok in Hz. destruct Hz as [Hz _].
  unfold add_txt_record. rewrite Hz. unfold_run. rewrite Hget.
  answer (record_sets_create_or_update (dns_client self) (resource_group self)
            zone (relative_record_name domain zone) "TXT"
            {| ttl := record_ttl;
               txt_records := [{| value := [record_content] |}] |});
    reflexivity.
Qed.

(** Claim C2.  After a successful discovery, when the record set exists,
    [add_txt_record] writes it back with its TTL and its entries as fetched
    and one entry for the new value added at the end, whether or not the
    value was there already (its number of occurrences grows by one, that of
    every other entry stays); when [record_sets.get] reports that the record
    set is not found, it writes a new record set with the given TTL and the
    single value. *)
Theorem add_txt_record_appends (self : _AzureClient)
  (domain record_content : string) (record_ttl : Z) (zone : string) :
  outcome (_find_managed_zone self domain) = inr zone ->
  let rg := resource_group self in
  let name := relative_record_name domain zone in
  let entry := mkTxtRecord [record_content] in
  let calls :=
    remote_calls (trace (add_txt_record self domain record_content record_ttl))
  in
  (forall record,
      record_sets_get (dns_client self) rg zone name "TXT" = inr record ->
      calls = [ZonesList;
               RecordSetsGet rg zone name "TXT";
               RecordSetsCreateOrUpdate rg zone name "TXT"
                 (mkRecordSet (ttl record) (txt_records record ++ [entry]))]
      /\ forall tr,
          count_occ TxtRecord_eq_dec (txt_records record ++ [entry]) tr
          = count_occ TxtRecord_eq_dec (txt_records record) tr
            + (if TxtRecord_eq_dec entry tr then 1 else 0)) /\
  (forall text,
      record_sets_get (dns_client self) rg zone name "TXT"
      = inl (ResourceNotFoundError text) ->
      calls = [ZonesList;
               RecordSetsGet rg zone name "TXT";
               RecordSetsCreateOrUpdate rg zone name "TXT"
                 (mkRecordSet record_ttl [entry])]).
Proof.
  intros Hz rg name entry calls. split.
  - intros record Hget. split.
    + now apply add_txt_record_found.
    + intros tr. rewrite count_occ_app. simpl.
      now destruct (TxtRecord_eq_dec entry tr).
  - intros text Hget. now apply add_txt_record_not_found with (text := text).
Qed.

Lemma add_txt_record_appends_witness :
  remote_calls
    (trace (add_txt_record
              (sample_client sample_zones (inr sample_record) (inr tt) (inr tt))
              "_acme-challenge.example.com" "token-2" 60))
  = [ZonesList;
     RecordSetsGet "certbot-rg" "example.com" "_acme-challenge" "TXT";
     RecordSetsCreateOrUpdate "certbot-rg" "example.com" "_acme-challenge" "TXT"
       (mkRecordSet 3600 [mkTxtRecord ["token-1"]; mkTxtRecord ["token-2"];
                          mkTxtRecord ["token-2"]])].
Proof.
  exact (proj1 (proj1 (@add_txt_record_appends
                         (sample_client sample_zones (inr sample_record)
                                        (inr tt) (inr tt))
                         "_acme-challenge.example.com" "token-2" 60
                         "example.com" eq_refl)
                      sample_record eq_refl)).
Defined.

(* ------------------------------------------------------------------ *)

Lemma value_differs_spec (record_content : string) (tr : TxtRecord) :
  value_differs record_content tr = true <-> value tr <> [record_content].
Proof.
  unfold value_differs.
  destruct (list_eq_dec string_dec (value tr) [record_content]); simpl;
    split; intros; congruence.
Qed.

Lemma is_empty_spec {A : Type} (l : list A) : is_empty l = true <-> l = [].
Proof.
  destruct l; simpl; split; intros; congruence.
Qed.

(** [del_txt_record] after a successful discovery, by the answer of
    [record_sets.get]. *)
Lemma del_txt_record_found (self : _AzureClient)
  (domain record_content zone : string) (record : RecordSet) :
  outcome (_find_managed_zone self domain) = inr zone ->
  record_sets_get (dns_client self) (resource_group self) zone
                  (relative_record_name domain zone) "TXT" = inr record ->
  remote_calls (trace (del_txt_record self domain record_content))
  = [ZonesList;
     RecordSetsGet (resource_group self) zone
                   (relative_record_name domain zone) "TXT";
     if is_empty (filter (value_differs record_content) (txt_records record))
     then RecordSetsDelete (resource_group self) zone
                           (relative_record_name domain zone) "TXT"
     else RecordSetsCreateOrUpdate (resource_group self) zone
            (relative_record_name domain zone) "TXT"
            (mkRecordSet (ttl record)
               (filter (value_differs record_content) (txt_records record)))].
Proof.
  intros Hz Hget. apply find_managed_zone_ok in Hz. destruct Hz as [Hz _].
  unfold del_txt_record. rewrite Hz. unfold_run. rewrite Hget.
  unfold filter_txt. cbn [txt_records].
  destruct (is_empty _).
  - answer (record_sets_delete (dns_client self) (resource_group self) zone
              (relative_record_name domain zone) "TXT"); reflexivity.
  - answer (record_sets_create_or_update (dns_client self)
              (resource_group self) zone
              (relative_record_name domain zone) "TXT"
              {| ttl := ttl record;
                 txt_records := filter (value_differs record_content)
                                       (txt_records record) |});
      reflexivity.
Qed.

Lemma del_txt_record_not_found (self : _AzureClient)
  (domain record_content zone text : string) :
  outcome (_find_managed_zone self domain) = inr zone ->
  record_sets_get (dns_client self) (resource_group self) zone
                  (relative_record_name domain zone) "TXT"
  = inl (ResourceNotFoundError text) ->
  del_txt_record self domain record_content
  = ([ZonesList;
      RecordSetsGet (resource_group self) zone
                    (relative_record_name domain zone) "TXT"],
     inr tt).
Proof.
  intros Hz Hget. apply find_managed_zone_ok in Hz. destruct Hz as [Hz _].
  unfold del_txt_record. rewrite Hz. unfold_run. now rewrite Hget.
Qed.

(** Claim C3.  After a successful discovery, when the record set exists,
    [del_txt_record] keeps, in their order, exactly the entries whose value
    list differs from the one-element list holding the target value; if
    none is left it deletes the record set, otherwise it writes the record
    set back with the entries that are left and the TTL as fetched. *)
Theorem del_txt_record_filters (self : _AzureClient)
  (domain record_content zone : string) (record : RecordSet) :
  outcome (_find_managed_zone self domain) = inr zone ->
  record_sets_get (dns_client self) (resource_group self) zone
                  (relative_record_name domain zone) "TXT" = inr record ->
  let rg := resource_group self in
  let name := relative_record_name domain zone in
  let calls := remote_calls (trace (del_txt_record self domain record_content)) in
  exists kept,
    kept = filter (fun tr => negb (if list_eq_dec string_dec (value tr)
                                                  [record_content]
                                   then true else false))
                  (txt_records record) /\
    (forall tr, In tr kept <->
                In tr (txt_records record) /\ value tr <> [record_content]) /\
    (kept = [] ->
     calls = [ZonesList; RecordSetsGet rg zone name "TXT";
              RecordSetsDelete rg zone name "TXT"]) /\
    (kept <> [] ->
     calls = [ZonesList; RecordSetsGet rg zone name "TXT";
              RecordSetsCreateOrUpdate rg zone name "TXT"
                (mkRecordSet (ttl record) kept)]).
Proof.
  intros Hz Hget rg name calls.
  exists (filter (value_differs record_content) (txt_records record)).
  split; [reflexivity|]. split.
  - intros tr. rewrite filter_In, value_differs_spec. reflexivity.
  - pose proof (del_txt_record_found self domain record_content Hz Hget) as H.
    fold rg name calls in H.
    split; intros Hk.
    + rewrite H. apply is_empty_spec in Hk. now rewrite Hk.
    + rewrite H. destruct (is_empty _) eqn:E; [|reflexivity].
      apply is_empty_spec in E. contradiction.
Qed.

Lemma del_txt_record_filters_witness :
  remote_calls
    (trace (del_txt_record
              (sample_client sample_zones (inr sample_record) (inr tt) (inr tt))
              "_acme-challenge.example.com" "token-2"))
  = [ZonesList;
     RecordSetsGet "certbot-rg" "example.com" "_acme-challenge" "TXT";
     RecordSetsCreateOrUpdate "certbot-rg" "example.com" "_acme-challenge" "TXT"
       (mkRecordSet 3600 [mkTxtRecord ["token-1"]])].
Proof.
  destruct (@del_txt_record_filters
              (sample_client sample_zones (inr sample_record) (inr tt) (inr tt))
              "_acme-challenge.example.com" "token-2" "example.com"
              sample_record eq_refl eq_refl)
    as (kept & -> & _ & _ & Hupsert).
  apply Hupsert. discriminate.
Defined.

(* ------------------------------------------------------------------ *)

Lemma add_txt_record_targets (self : _AzureClient)
  (domain record_content : string) (record_ttl : Z) (zone : string) :
  outcome (_find_managed_zone self domain) = inr zone ->
  forall ev tgt,
    In ev (trace (add_txt_record self domain record_content record_ttl)) ->
    record_target ev = Some tgt ->
    tgt = (resource_group self, zone, relative_record_name domain zone, "TXT").
Proof.
  intros Hz. apply find_managed_zone_ok in Hz. destruct Hz as [Hz _].
  unfold add_txt_record. rewrite Hz. unfold_run. unfold append_txt.
  split_answers; each_event.
Qed.

Lemma del_txt_record_targets (self : _AzureClient)
  (domain record_content zone : string) :
  outcome (_find_managed_zone self domain) = inr zone ->
  forall ev tgt,
    In ev (trace (del_txt_record self domain record_content)) ->
    record_target ev = Some tgt ->
    tgt = (resource_group self, zone, relative_record_name domain zone, "TXT").
Proof.
  intros Hz. apply find_managed_zone_ok in Hz. destruct Hz as [Hz _].
  unfold del_txt_record. rewrite Hz. unfold_run. unfold filter_txt.
  split_answers; each_event.
Qed.

(** Both operations start their record work by fetching the record set. *)
Lemma add_txt_record_gets (self : _AzureClient)
  (domain record_content : string) (record_ttl : Z) (zone : string) :
  outcome (_find_managed_zone self domain) = inr zone ->
  exists rest,
    trace (add_txt_record self domain record_content record_ttl)
    = ZonesList
      :: RecordSetsGet (resource_group self) zone
                       (relative_record_name domain zone) "TXT"
      :: rest.
Proof.
  intros Hz. apply find_managed_zone_ok in Hz. destruct Hz as [Hz _].
  unfold add_txt_record. rewrite Hz. unfold_run. unfold append_txt.
  split_answers; eexists; reflexivity.
Qed.

Lemma del_txt_record_gets (self : _AzureClient)
  (domain record_content zone : string) :
  outcome (_find_managed_zone self domain) = inr zone ->
  exists rest,
    trace (del_txt_record self domain record_content)
    = ZonesList
      :: RecordSetsGet (resource_group self) zone
                       (relative_record_name domain zone) "TXT"
      :: rest.
Proof.
  intros Hz. apply find_managed_zone_ok in Hz. destruct Hz as [Hz _].
  unfold del_txt_record. rewrite Hz. unfold_run. unfold filter_txt.
  split_answers; eexists; reflexivity.
Qed.

(** Claim C5.  For the zone that discovery returns, the relative record
    name is the fqdn's labels in front of the zone's labels joined by '.',
    so that the fqdn is the relative name, a '.', and the zone (or the zone
    alone, with an empty relative name); every record operation of
    [add_txt_record] and [del_txt_record] addresses that name in that zone;
    and for [_acme-challenge.example.com] in zone [example.com] the name is
    [_acme-challenge]. *)
Theorem relative_record_name_strips_zone (self : _AzureClient)
  (domain zone : string) :
  outcome (_find_managed_zone self domain) = inr zone ->
  let name := relative_record_name domain zone in
  let here := (resource_group self, zone, name, "TXT") in
  (exists labels zone_labels,
      Py.split "." domain = labels ++ zone_labels /\
      zone = Py.join "." zone_labels /\
      name = Py.join "." labels) /\
  ((zone = domain /\ name = EmptyString) \/
   domain = (name ++ "." ++ zone)%string) /\
  (forall record_content record_ttl,
      (exists rest,
          trace (add_txt_record self domain record_content record_ttl)
          = ZonesList :: RecordSetsGet (resource_group self) zone name "TXT"
                      :: rest) /\
      forall ev tgt,
        In ev (trace (add_txt_record self domain record_content record_ttl)) ->
        record_target ev = Some tgt -> tgt = here) /\
  (forall record_content,
      (exists rest,
          trace (del_txt_record self domain record_content)
          = ZonesList :: RecordSetsGet (resource_group self) zone name "TXT"
                      :: rest) /\
      forall ev tgt,
        In ev (trace (del_txt_record self domain record_content)) ->
        record_target ev = Some tgt -> tgt = here) /\
  relative_record_name "_acme-challenge.example.com" "example.com"
  = "_acme-challenge".
Proof.
  intros Hz name here.
  destruct (find_managed_zone_ok self domain Hz) as [_ Hc].
  destruct (relative_record_name_spec domain zone Hc) as [Hl Hs].
  split; [exact Hl|]. split; [exact Hs|].
  split; [|split; [|reflexivity]].
  - intros record_content record_ttl. split.
    + now apply add_txt_record_gets.
    + now apply add_txt_record_targets.
  - intros record_content. split.
    + now apply del_txt_record_gets.
    + now apply del_txt_record_targets.
Qed.

Lemma relative_record_name_strips_zone_witness :
  "_acme-challenge.sub.example.com"
  = (relative_record_name "_acme-challenge.sub.example.com" "sub.example.com"
     ++ "." ++ "sub.example.com")%string.
Proof.
  destruct (proj1 (proj2
              (@relative_record_name_strips_zone
                 (sample_client sample_zones (inr sample_record)
                                (inr tt) (inr tt))
                 "_acme-challenge.sub.example.com" "sub.example.com" eq_refl)))
    as [[E _]|E].
  - discriminate E.
  - exact E.
Defined.

(* ------------------------------------------------------------------ *)

(** Claim C7.  After a successful discovery, when [record_sets.get] reports
    that the record set is not found, [del_txt_record] returns normally
    having done nothing but list the zones and ask for the record set: no
    delete, no write, no log line. *)
Theorem del_txt_record_absent_noop (self : _AzureClient)
  (domain record_content zone text : string) :
  outcome (_find_managed_zone self domain) = inr zone ->
  record_sets_get (dns_client self) (resource_group self) zone
                  (relative_record_name domain zone) "TXT"
  = inl (ResourceNotFoundError text) ->
  outcome (del_txt_record self domain record_content) = inr tt /\
  trace (del_txt_record self domain record_content)
  = [ZonesList;
     RecordSetsGet (resource_group self) zone
                   (relative_record_name domain zone) "TXT"] /\
  filter is_mutation (trace (del_txt_record self domain record_content)) = [].
Proof.
  intros Hz Hget.
  rewrite (del_txt_record_not_found self domain record_content Hz Hget).
  repeat split.
Qed.

Lemma del_txt_record_absent_noop_witness :
  del_txt_record
    (sample_client sample_zones (inl (ResourceNotFoundError "Not Found"))
                   (inr tt) (inr tt))
    "_acme-challenge.example.com" "token-1"
  = ([ZonesList;
      RecordSetsGet "certbot-rg" "example.com" "_acme-challenge" "TXT"],
     inr tt).
Proof.
  destruct (@del_txt_record_absent_noop
              (sample_client sample_zones
                             (inl (ResourceNotFoundError "Not Found"))
                             (inr tt) (inr tt))
              "_acme-challenge.example.com" "token-1" "example.com"
              "Not Found" eq_refl eq_refl)
    as (Ho & Ht & _).
  unfold outcome, trace in *.
  destruct (del_txt_record _ _ _) as [t r]. simpl in *. now subst.
Defined.

(* ------------------------------------------------------------------ *)

Lemma guesses_head (domain : string) :
  exists rest, base_domain_name_guesses domain = domain :: rest.
Proof.
  rewrite guesses_suffix_joins.
  destruct (Py.split "." domain) as [|p rest] eqn:E.
  - now apply split_not_nil in E.
  - exists (suffix_joins "." rest). cbn [suffix_joins]. f_equal.
    rewrite <- E. apply join_split.
Qed.

Lemma relative_record_name_self (domain : string) :
  relative_record_name domain domain = EmptyString.
Proof.
  assert (H0 : 0 < length (Py.split "." domain)).
  { destruct (Py.split "." domain) eqn:E;
      [now apply split_not_nil in E | simpl; lia]. }
  pose proof (relative_record_name_at domain H0) as H.
  simpl skipn in H. simpl firstn in H. now rewrite join_split in H.
Qed.

(** Claim C10.  When the fqdn is itself one of the listed zone names,
    discovery returns the fqdn and the relative record name is the empty
    string.  Both operations then carry on under that empty name: each
    fetches the record set of the empty name in the zone; [add_txt_record]
    goes on to write it there (the new record set when the fetch reported
    not-found, the fetched one with the new entry otherwise);
    [del_txt_record] goes on to delete it there or to write the entries
    that are left there, and stops after the fetch only when that reported
    not-found; and no record operation of either addresses any other
    name. *)
Theorem fqdn_is_zone_empty_name (self : _AzureClient) (domain : string)
  (zones : list string) :
  for_zone_in (zones_list (dns_client self)) [] = inr zones ->
  In domain zones ->
  let rg := resource_group self in
  let here := (rg, domain, EmptyString, "TXT") in
  outcome (_find_managed_zone self domain) = inr domain /\
  relative_record_name domain domain = EmptyString /\
  (forall record_content record_ttl,
      (exists rest,
          trace (add_txt_record self domain record_content record_ttl)
          = ZonesList :: RecordSetsGet rg domain EmptyString "TXT" :: rest) /\
      (forall ev tgt,
          In ev (trace (add_txt_record self domain record_content record_ttl))
          -> record_target ev = Some tgt -> tgt = here) /\
      (forall text,
          record_sets_get (dns_client self) rg domain EmptyString "TXT"
          = inl (ResourceNotFoundError text) ->
          remote_calls
            (trace (add_txt_record self domain record_content record_ttl))
          = [ZonesList;
             RecordSetsGet rg domain EmptyString "TXT";
             RecordSetsCreateOrUpdate rg domain EmptyString "TXT"
               (mkRecordSet record_ttl [mkTxtRecord [record_content]])]) /\
      (forall record,
          record_sets_get (dns_client self) rg domain EmptyString "TXT"
          = inr record ->
          remote_calls
            (trace (add_txt_record self domain record_content record_ttl))
          = [ZonesList;
             RecordSetsGet rg domain EmptyString "TXT";
             RecordSetsCreateOrUpdate rg domain EmptyString "TXT"
               (mkRecordSet (ttl record)
                  (txt_records record ++ [mkTxtRecord [record_content]]))])) /\
  (forall record_content,
      (exists rest,
          trace (del_txt_record self domain record_content)
          = ZonesList :: RecordSetsGet rg domain EmptyString "TXT" :: rest) /\
      (forall ev tgt,
          In ev (trace (del_txt_record self domain record_content)) ->
          record_target ev = Some tgt -> tgt = here) /\
      (forall text,
          record_sets_get (dns_client self) rg domain EmptyString "TXT"
          = inl (ResourceNotFoundError text) ->
          del_txt_record self domain record_content
          = ([ZonesList; RecordSetsGet rg domain EmptyString "TXT"], inr tt)) /\
      (forall record,
          record_sets_get (dns_client self) rg domain EmptyString "TXT"
          = inr record ->
          remote_calls (trace (del_txt_record self domain record_content))
          = [ZonesList;
             RecordSetsGet rg domain EmptyString "TXT";
             if is_empty (filter (value_differs record_content)
                                 (txt_records record))
             then RecordSetsDelete rg domain EmptyString "TXT"
             else RecordSetsCreateOrUpdate rg domain EmptyString "TXT"
                    (mkRecordSet (ttl record)
                       (filter (value_differs record_content)
                               (txt_records record)))])).
Proof.
  intros Hlist Hin rg here.
  assert (Hz : outcome (_find_managed_zone self domain) = inr domain).
  { rewrite (find_managed_zone_listed self domain Hlist).
    destruct (guesses_head domain) as [rest ->]. unfold outcome. simpl.
    apply contains_In in Hin. now rewrite Hin. }
  pose proof (relative_record_name_self domain) as Hn.
  split; [exact Hz|]. split; [exact Hn|]. subst here rg. split.
  - intros record_content record_ttl.
    pose proof (add_txt_record_gets self domain record_content record_ttl Hz)
      as Hg.
    pose proof (add_txt_record_targets self domain record_content record_ttl
                                       Hz) as Ht.
    rewrite Hn in Hg, Ht.
    split; [exact Hg|]. split; [exact Ht|]. split.
    + intros text Hget.
      pose proof (@add_txt_record_not_found self domain record_content
                    record_ttl domain text Hz) as Hnf.
      rewrite Hn in Hnf. exact (Hnf Hget).
    + intros record Hget.
      pose proof (@add_txt_record_found self domain record_content
                    record_ttl domain record Hz) as Hf.
      rewrite Hn in Hf. exact (Hf Hget).
  - intros record_content.
    pose proof (del_txt_record_gets self domain record_content Hz) as Hg.
    pose proof (del_txt_record_targets self domain record_content Hz) as Ht.
    rewrite Hn in Hg, Ht.
    split; [exact Hg|]. split; [exact Ht|]. split.
    + intros text Hget.
      pose proof (@del_txt_record_not_found self domain record_content
                    domain text Hz) as Hnf.
      rewrite Hn in Hnf. exact (Hnf Hget).
    + intros record Hget.
      pose proof (@del_txt_record_found self domain record_content
                    domain record Hz) as Hf.
      rewrite Hn in Hf. exact (Hf Hget).
Qed.

Lemma fqdn_is_zone_empty_name_witness :
  remote_calls
    (trace (add_txt_record
              (sample_client sample_zones (inr sample_record) (inr tt) (inr tt))
              "sub.example.com" "token-3" 60))
  = [ZonesList;
     RecordSetsGet "certbot-rg" "sub.example.com" EmptyString "TXT";
     RecordSetsCreateOrUpdate "certbot-rg" "sub.example.com" EmptyString "TXT"
       (mkRecordSet 3600 [mkTxtRecord ["token-1"]; mkTxtRecord ["token-2"];
                          mkTxtRecord ["token-3"]])] /\
  remote_calls
    (trace (del_txt_record
              (sample_client sample_zones
                 (inr (mkRecordSet 60 [mkTxtRecord ["token-3"]]))
                 (inr tt) (inr tt))
              "sub.example.com" "token-3"))
  = [ZonesList;
     RecordSetsGet "certbot-rg" "sub.example.com" EmptyString "TXT";
     RecordSetsDelete "certbot-rg" "sub.example.com" EmptyString "TXT"].
Proof.
  split.
  - refine (proj2 (proj2 (proj2
              (proj1 (proj2 (proj2
                 (@fqdn_is_zone_empty_name
                    (sample_client sample_zones (inr sample_record)
                                   (inr tt) (inr tt))
                    "sub.example.com" ["example.com"; "sub.example.com"]
                    eq_refl _)))
                 "token-3" 60%Z)))
              sample_record eq_refl).
    simpl. auto.
  - refine (proj2 (proj2 (proj2
              (proj2 (proj2 (proj2
                 (@fqdn_is_zone_empty_name
                    (sample_client sample_zones
                       (inr (mkRecordSet 60 [mkTxtRecord ["token-3"]]))
                       (inr tt) (inr tt))
                    "sub.example.com" ["example.com"; "sub.example.com"]
                    eq_refl _)))
                 "token-3")))
              (mkRecordSet 60 [mkTxtRecord ["token-3"]]) eq_refl).
    simpl. auto.
Defined.

(* ------------------------------------------------------------------ *)

(** Claim C6.  When the zones are listed and none of the candidates is
    among them, [add_txt_record] raises the [PluginError] whose message is
    formatted from the fqdn and the whole list of candidates, having done
    nothing but list the zones: no record set is fetched, written or
    deleted, and nothing is logged. *)
Theorem add_txt_record_no_zone (self : _AzureClient)
  (domain record_content : string) (record_ttl : Z) (zones : list string) :
  for_zone_in (zones_list (dns_client self)) [] = inr zones ->
  (forall c, In c (base_domain_name_guesses domain) -> ~ In c zones) ->
  outcome (add_txt_record self domain record_content record_ttl)
  = inl (PluginError
           (Format
              "Unable to determine managed zone for {0} using zone names: {1}."
              [VStr domain; VStrList (base_domain_name_guesses domain)])) /\
  trace (add_txt_record self domain record_content record_ttl) = [ZonesList] /\
  filter is_mutation
         (trace (add_txt_record self domain record_content record_ttl)) = [].
Proof.
  intros Hlist Hnone.
  assert (Hf : find (Py.contains zones) (base_domain_name_guesses domain)
               = None).
  { destruct (find _ _) as [z|] eqn:Ef; [|reflexivity].
    apply find_some in Ef. destruct Ef as [Hz Hc].
    apply contains_In in Hc. now destruct (Hnone z Hz). }
  unfold add_txt_record.
  rewrite (find_managed_zone_listed self domain Hlist), Hf.
  repeat split.
Qed.

Lemma add_txt_record_no_zone_witness :
  trace (add_txt_record
           (sample_client sample_zones (inr sample_record) (inr tt) (inr tt))
           "_acme-challenge.example.org" "token-1" 60)
  = [ZonesList].
Proof.
  apply (@add_txt_record_no_zone
           (sample_client sample_zones (inr sample_record) (inr tt) (inr tt))
           "_acme-challenge.example.org" "token-1" 60
           ["example.com"; "sub.example.com"] eq_refl).
  intros c [<-|[<-|[<-|[]]]] [H|[H|[]]]; discriminate.
Defined.

(* ------------------------------------------------------------------ *)

(** The three ways [_find_managed_zone] ends: with a zone; with an
    exception and nothing logged; with the wrapped [CloudError] of the
    listing, logged at error level. *)
Lemma find_managed_zone_cases (self : _AzureClient) (domain : string) :
  (exists zone, _find_managed_zone self domain = ([ZonesList], inr zone)) \/
  (exists e, _find_managed_zone self domain = ([ZonesList], inl e) /\
             forall text, e <> CloudError text) \/
  (exists text,
      _find_managed_zone self domain
      = ([ZonesList; Log ERROR "Error finding zone: %s" (CloudError text)],
         inl (listing_error text))).
Proof.
  unfold _find_managed_zone. unfold_run.
  destruct (for_zone_in _ _) as [e|zones]; [destruct e|]; simpl.
  - right. right. now eexists.
  - right. left. eexists. split; [reflexivity | discriminate].
  - right. left. eexists. split; [reflexivity | discriminate].
  - right. left. eexists. split; [reflexivity | discriminate].
  - right. left. eexists. split; [reflexivity | discriminate].
  - destruct (find _ _).
    + left. now eexists.
    + right. left. eexists. split; [reflexivity | discriminate].
Qed.

(** Without a zone, [add_txt_record] touches no record set. *)
Lemma add_txt_record_zone_failed (self : _AzureClient)
  (domain record_content : string) (record_ttl : Z) (e : exn) :
  outcome (_find_managed_zone self domain) = inl e ->
  forall ev, In ev (trace (add_txt_record self domain record_content record_ttl))
             -> record_target ev = None.
Proof.
  intros Hz.
  destruct (find_managed_zone_cases self domain)
    as [(zone & H)|[(e' & H & _)|(text & H)]];
    rewrite H in Hz; unfold outcome in Hz; simpl in Hz; [discriminate| |];
    unfold add_txt_record; rewrite H; unfold_run.
  - destruct e'; simpl; intros ev [<-|[<-|[]]] || intros ev [<-|[]];
      reflexivity.
  - simpl. intros ev [<-|[<-|[]]]; reflexivity.
Qed.

(** Every record set [add_txt_record] writes is what it fetched (or
    nothing, when the record set was not found) followed by one entry whose
    value list is the new value alone. *)
Lemma add_txt_record_writes (self : _AzureClient)
  (domain record_content : string) (record_ttl : Z)
  (g z n t : string) (r : RecordSet) :
  In (RecordSetsCreateOrUpdate g z n t r)
     (trace (add_txt_record self domain record_content record_ttl)) ->
  exists zone old,
    outcome (_find_managed_zone self domain) = inr zone /\
    txt_records r = old ++ [mkTxtRecord [record_content]] /\
    ((old = [] /\
      exists text,
        record_sets_get (dns_client self) (resource_group self) zone
                        (relative_record_name domain zone) "TXT"
        = inl (ResourceNotFoundError text)) \/
     exists record,
       record_sets_get (dns_client self) (resource_group self) zone
                       (relative_record_name domain zone) "TXT" = inr record /\
       old = txt_records record).
Proof.
  intros Hin.
  destruct (outcome (_find_managed_zone self domain)) as [e|zone] eqn:Hz.
  - apply (add_txt_record_zone_failed _ _ _ _ Hz) in Hin. discriminate.
  - exists zone.
    destruct (find_managed_zone_ok self domain Hz) as [Hf _].
    revert Hin. unfold add_txt_record. rewrite Hf. unfold_run.
    unfold append_txt.
    destruct (record_sets_get _ _ _ _ _) as [e|record] eqn:Hget.
    + destruct e; try (simpl; intros [H|[H|[H|[]]]] || intros [H|[H|[]]];
                       discriminate H).
      intros Hin. exists []. split; [reflexivity|].
      assert (Hr : r = mkRecordSet record_ttl [mkTxtRecord [record_content]]).
      { revert Hin. split_answers; simpl;
          intros [H|[H|[H|[H|[]]]]] || intros [H|[H|[H|[]]]];
          try discriminate H; now injection H. }
      rewrite Hr. split; [reflexivity|]. left. split; [reflexivity|].
      now eexists.
    + intros Hin. exists (txt_records record). split; [reflexivity|].
      assert (Hr : r = mkRecordSet (ttl record)
                         (txt_records record ++ [mkTxtRecord [record_content]])).
      { revert Hin. split_answers; simpl;
          intros [H|[H|[H|[H|[]]]]] || intros [H|[H|[H|[]]]];
          try discriminate H; now injection H. }
      rewrite Hr. split; [reflexivity|]. right. now exists record.
Qed.

Lemma remote_calls_In (t : list event) (ev : event) :
  In ev (remote_calls t) <-> In ev t /\ is_remote_call ev = true.
Proof.
  unfold remote_calls. apply filter_In.
Qed.




(* ================================================================== *)
(** ** Which exceptions reach the caller *)
(* ================================================================== *)

(** A pager that never fails yields all its names, in order. *)
Lemma for_zone_in_yields (names acc : list string) :
  for_zone_in (map Yield names) acc = inr (acc ++ names).
Proof.
  revert acc. induction names as [|n names IH]; intros acc; simpl.
  - now rewrite app_nil_r.
  - rewrite IH. now rewrite <- app_assoc.
Qed.

Lemma listing_fails_cloud (it : pager) :
  Forall step_fails_cloud it ->
  forall acc e,
    (for_zone_in it acc = inl e -> is_cloud_error e) /\
    (zones_next it acc = inl e -> is_cloud_error e).
Proof.
  induction 1 as [|s it Hs _ IH]; intros acc e.
  - split; discriminate.
  - destruct s as [name|e']; simpl.
    + split; apply IH.
    + destruct Hs as [text ->]. split; intros [= <-]; now exists text.
Qed.

(** [add_txt_record] never lets a [CloudError] through. *)
Lemma add_txt_record_wraps_cloud_error (self : _AzureClient)
  (domain record_content : string) (record_ttl : Z) (text : string) :
  outcome (add_txt_record self domain record_content record_ttl)
  <> inl (CloudError text).
Proof.
  unfold add_txt_record.
  destruct (find_managed_zone_cases self domain)
    as [(zone & H)|[(e & H & He)|(text' & H)]]; rewrite H; unfold_run.
  - unfold append_txt. split_answers; simpl; discriminate.
  - destruct e; simpl; discriminate.
  - simpl. discriminate.
Qed.

(** [del_txt_record] lets neither a [CloudError] nor a [PluginError]
    through. *)
Lemma del_txt_record_swallows (self : _AzureClient)
  (domain record_content : string) (e : exn) :
  outcome (del_txt_record self domain record_content) = inl e ->
  (forall text, e <> CloudError text) /\ (forall msg, e <> PluginError msg).
Proof.
  unfold del_txt_record.
  destruct (find_managed_zone_cases self domain)
    as [(zone & H)|[(e' & H & He)|(text' & H)]]; rewrite H; unfold_run.
  - unfold filter_txt. split_answers; simpl; intros [= <-] || discriminate;
      split; discriminate.
  - destruct e'; simpl; intros [= <-] || discriminate; split; discriminate.
  - simpl. discriminate.
Qed.

(** Property X10.  Against a remote service that fails with [CloudError]s
    only (the fetch may also report not-found), [add_txt_record] ends
    normally or with a [PluginError]. *)
Lemma add_txt_record_cloud_errors_only (self : _AzureClient)
  (domain record_content : string) (record_ttl : Z) :
  only_cloud_errors (dns_client self) ->
  outcome (add_txt_record self domain record_content record_ttl) = inr tt \/
  exists msg,
    outcome (add_txt_record self domain record_content record_ttl)
    = inl (PluginError msg).
Proof.
  intros (Hl & Hg & Hu & _).
  unfold add_txt_record, _find_managed_zone. unfold_run.
  destruct (for_zone_in _ _) as [e|zones] eqn:Hlist.
  - apply (listing_fails_cloud Hl) in Hlist. destruct Hlist as [text ->].
    simpl. right. now eexists.
  - destruct (find _ _) as [zone|]; simpl; [|right; now eexists].
    unfold append_txt.
    destruct (record_sets_get _ _ _ _ _) as [e|record] eqn:Hget.
    + apply Hg in Hget. destruct Hget as [[text ->]|[text ->]]; simpl.
      * right. now eexists.
      * destruct (record_sets_create_or_update _ _ _ _ _ _) as [e|[]] eqn:Hup;
          simpl; [|now left].
        apply Hu in Hup. destruct Hup as [text' ->]. simpl.
        right. now eexists.
    + simpl.
      destruct (record_sets_create_or_update _ _ _ _ _ _) as [e|[]] eqn:Hup;
        simpl; [|now left].
      apply Hu in Hup. destruct Hup as [text' ->]. simpl.
      right. now eexists.
Qed.

(** Property X11.  Against a remote service that fails with [CloudError]s
    only (the fetch may also report not-found), [del_txt_record] always
    returns normally. *)
Lemma del_txt_record_cloud_errors_only (self : _AzureClient)
  (domain record_content : string) :
  only_cloud_errors (dns_client self) ->
  outcome (del_txt_record self domain record_content) = inr tt.
Proof.
  intros H.
  destruct (outcome (del_txt_record self domain record_content))
    as [e|[]] eqn:Ho; [|reflexivity].
  exfalso. destruct H as (Hl & Hg & Hu & Hd).
  destruct (del_txt_record_swallows _ _ _ Ho) as [Hc Hp].
  revert Ho. unfold del_txt_record, _find_managed_zone. unfold_run.
  destruct (for_zone_in _ _) as [e0|zones] eqn:Hlist.
  - apply (listing_fails_cloud Hl) in Hlist. destruct Hlist as [text ->].
    simpl. discriminate.
  - destruct (find _ _) as [zone|]; simpl; [|discriminate].
    unfold filter_txt.
    destruct (record_sets_get _ _ _ _ _) as [e0|record] eqn:Hget.
    + apply Hg in Hget. destruct Hget as [[text ->]|[text ->]]; simpl;
        discriminate.
    + simpl. destruct (is_empty _).
      * destruct (record_sets_delete _ _ _ _ _) as [e0|[]] eqn:Hdel;
          simpl; [|discriminate].
        apply Hd in Hdel. destruct Hdel as [text ->]. simpl. discriminate.
      * destruct (record_sets_create_or_update _ _ _ _ _ _) as [e0|[]] eqn:Hup;
          simpl; [|discriminate].
        apply Hu in Hup. destruct Hup as [text ->]. simpl. discriminate.
Qed.

(** Property X5.  On the remove path a discovery that finds no zone is
    logged at warning level and the call returns normally, with no record
    operation. *)
Lemma del_txt_record_no_zone (self : _AzureClient)
  (domain record_content : string) (zones : list string) :
  for_zone_in (zones_list (dns_client self)) [] = inr zones ->
  (forall c, In c (base_domain_name_guesses domain) -> ~ In c zones) ->
  del_txt_record self domain record_content
  = ([ZonesList;
      Log WARNING "Encountered error deleting TXT record: %s"
          (no_zone_error domain)],
     inr tt).
Proof.
  intros Hlist Hnone.
  assert (Hf : find (Py.contains zones) (base_domain_name_guesses domain)
               = None).
  { destruct (find _ _) as [z|] eqn:Ef; [|reflexivity].
    apply find_some in Ef. destruct Ef as [Hz Hc].
    apply contains_In in Hc. now destruct (Hnone z Hz). }
  unfold del_txt_record.
  now rewrite (find_managed_zone_listed self domain Hlist), Hf.
Qed.

(** Property X4.  A [CloudError] of the listing is logged at error level
    by the discovery, wrapped, and on the remove path logged again at
    warning level and dropped: [del_txt_record] returns normally without
    any record operation. *)
Lemma del_txt_record_listing_cloud_error (self : _AzureClient)
  (domain record_content text : string) :
  for_zone_in (zones_list (dns_client self)) [] = inl (CloudError text) ->
  del_txt_record self domain record_content
  = ([ZonesList;
      Log ERROR "Error finding zone: %s" (CloudError text);
      Log WARNING "Encountered error deleting TXT record: %s"
          (listing_error text)],
     inr tt).
Proof.
  intros Hlist. unfold del_txt_record, _find_managed_zone. unfold_run.
  now rewrite Hlist.
Qed.

(** Claim C8, as the code has it: a failure of the remote service that is
    not a [CloudError] reaches the caller of [add_txt_record] as it was
    raised, unwrapped and unlogged.  Here the record set is reported not
    found and the write that follows fails with
    [azure.core.exceptions.ResourceNotFoundError]; and, second, the zone
    listing fails with [azure.core.exceptions.HttpResponseError]. *)
Theorem add_txt_record_leaks_remote_error :
  add_txt_record
    (sample_client sample_zones
                   (inl (ResourceNotFoundError "ResourceNotFound"))
                   (inl (ResourceNotFoundError "ParentResourceNotFound"))
                   (inr tt))
    "_acme-challenge.example.com" "token-1" 60
  = ([ZonesList;
      RecordSetsGet "certbot-rg" "example.com" "_acme-challenge" "TXT";
      RecordSetsCreateOrUpdate "certbot-rg" "example.com" "_acme-challenge"
        "TXT" (mkRecordSet 60 [mkTxtRecord ["token-1"]])],
     inl (ResourceNotFoundError "ParentResourceNotFound")) /\
  add_txt_record
    (sample_client
       [Fail (OtherError "azure.core.exceptions.HttpResponseError"
                         "AuthorizationFailed")]
       (inr sample_record) (inr tt) (inr tt))
    "_acme-challenge.example.com" "token-1" 60
  = ([ZonesList],
     inl (OtherError "azure.core.exceptions.HttpResponseError"
                     "AuthorizationFailed")).
Proof.
  split; reflexivity.
Qed.

(** Claim C4, as the code has it: a failure of the remote service that is
    neither a [CloudError] nor a [PluginError] reaches the caller of
    [del_txt_record] as it was raised, and no warning is logged.  Here the
    zone listing fails with [azure.core.exceptions.ResourceNotFoundError];
    and, second, the record set is fetched and the write of the entries
    that are left fails with [azure.core.exceptions.HttpResponseError]. *)
Theorem del_txt_record_leaks_remote_error :
  del_txt_record
    (sample_client [Fail (ResourceNotFoundError "SubscriptionNotFound")]
                   (inr sample_record) (inr tt) (inr tt))
    "_acme-challenge.example.com" "token-1"
  = ([ZonesList], inl (ResourceNotFoundError "SubscriptionNotFound")) /\
  del_txt_record
    (sample_client sample_zones (inr sample_record)
       (inl (OtherError "azure.core.exceptions.HttpResponseError"
                        "AuthorizationFailed"))
       (inr tt))
    "_acme-challenge.example.com" "token-1"
  = ([ZonesList;
      RecordSetsGet "certbot-rg" "example.com" "_acme-challenge" "TXT";
      RecordSetsCreateOrUpdate "certbot-rg" "example.com" "_acme-challenge"
        "TXT" (mkRecordSet 3600 [mkTxtRecord ["token-2"]])],
     inl (OtherError "azure.core.exceptions.HttpResponseError"
                     "AuthorizationFailed")).
Proof.
  split; reflexivity.
Qed.

(* ================================================================== *)
(** ** Further properties of the listing loop and of discovery *)
(* ================================================================== *)

Lemma for_zone_in_fails (names : list string) (e : exn) (rest : pager)
  (acc : list string) :
  is_StopIteration e = false ->
  for_zone_in (map Yield names ++ Fail e :: rest) acc = inl e.
Proof.
  intros He. revert acc. induction names as [|n names IH]; intros acc; simpl.
  - destruct e; try reflexivity. discriminate.
  - apply IH.
Qed.

(** Property X1.  When the pager yields its names without failing, the loop
    gathers all of them, in order, and discovery decides on exactly these
    names: it returns the first candidate among them, or raises the
    no-zone error, having made the one listing call. *)
Theorem find_managed_zone_drains_pager (self : _AzureClient)
  (domain : string) (names : list string) :
  zones_list (dns_client self) = map Yield names ->
  for_zone_in (zones_list (dns_client self)) [] = inr names /\
  _find_managed_zone self domain
  = ([ZonesList],
     match find (Py.contains names) (base_domain_name_guesses domain) with
     | Some zone_name => inr zone_name
     | None => inl (no_zone_error domain)
     end).
Proof.
  intros Hp.
  assert (Hl : for_zone_in (zones_list (dns_client self)) [] = inr names).
  { rewrite Hp. apply (for_zone_in_yields names []). }
  split; [exact Hl | now apply find_managed_zone_listed].
Qed.

Lemma find_managed_zone_drains_pager_witness :
  _find_managed_zone
    (sample_client sample_zones (inr sample_record) (inr tt) (inr tt))
    "_acme-challenge.sub.example.com"
  = ([ZonesList], inr "sub.example.com").
Proof.
  exact (proj2 (@find_managed_zone_drains_pager
                  (sample_client sample_zones (inr sample_record)
                                 (inr tt) (inr tt))
                  "_acme-challenge.sub.example.com"
                  ["example.com"; "sub.example.com"] eq_refl)).
Defined.

(** Property X2.  An exception other than [StopIteration] raised by the
    pager after it has yielded some names ends discovery at once: the
    names gathered so far are not used, even when one of them is a
    candidate.  A [CloudError] is logged at error level and replaced by the
    listing [PluginError]; any other exception is raised as it is, with
    nothing logged. *)
Theorem find_managed_zone_listing_failure (self : _AzureClient)
  (domain : string) (names : list string) (e : exn) (rest : pager) :
  zones_list (dns_client self) = map Yield names ++ Fail e :: rest ->
  is_StopIteration e = false ->
  _find_managed_zone self domain
  = (ZonesList :: (if is_CloudError e
                   then [Log ERROR "Error finding zone: %s" e]
                   else []),
     inl (surfaced_by_discovery e)).
Proof.
  intros Hp He. unfold _find_managed_zone. unfold_run.
  rewrite Hp, (@for_zone_in_fails names e rest [] He).
  now destruct e.
Qed.

Lemma find_managed_zone_listing_failure_witness :
  _find_managed_zone
    (sample_client [Yield "example.com"; Fail (CloudError "throttled")]
                   (inr sample_record) (inr tt) (inr tt))
    "_acme-challenge.example.com"
  = ([ZonesList; Log ERROR "Error finding zone: %s" (CloudError "throttled")],
     inl (listing_error "throttled")).
Proof.
  exact (@find_managed_zone_listing_failure
           (sample_client [Yield "example.com"; Fail (CloudError "throttled")]
                          (inr sample_record) (inr tt) (inr tt))
           "_acme-challenge.example.com" ["example.com"]
           (CloudError "throttled") [] eq_refl eq_refl).
Defined.

(** Property X3.  When the listing fails, [add_txt_record] ends as
    discovery does: the listing [PluginError] (or the raw exception) passes
    its handler untouched, it is not logged or wrapped a second time, and
    no record set is fetched or written. *)
Theorem add_txt_record_listing_failure (self : _AzureClient)
  (domain record_content : string) (record_ttl : Z) (e : exn) :
  for_zone_in (zones_list (dns_client self)) [] = inl e ->
  add_txt_record self domain record_content record_ttl
  = (ZonesList :: (if is_CloudError e
                   then [Log ERROR "Error finding zone: %s" e]
                   else []),
     inl (surfaced_by_discovery e)).
Proof.
  intros Hl. unfold add_txt_record, _find_managed_zone. unfold_run.
  rewrite Hl. now destruct e.
Qed.

Lemma add_txt_record_listing_failure_witness :
  add_txt_record
    (sample_client [Yield "example.com"; Fail (CloudError "throttled")]
                   (inr sample_record) (inr tt) (inr tt))
    "_acme-challenge.example.com" "token-1" 60
  = ([ZonesList; Log ERROR "Error finding zone: %s" (CloudError "throttled")],
     inl (listing_error "throttled")).
Proof.
  exact (@add_txt_record_listing_failure
           (sample_client [Yield "example.com"; Fail (CloudError "throttled")]
                          (inr sample_record) (inr tt) (inr tt))
           "_acme-challenge.example.com" "token-1" 60
           (CloudError "throttled") eq_refl).
Defined.

Lemma del_txt_record_listing_cloud_error_witness :
  del_txt_record
    (sample_client [Yield "example.com"; Fail (CloudError "throttled")]
                   (inr sample_record) (inr tt) (inr tt))
    "_acme-challenge.example.com" "token-1"
  = ([ZonesList;
      Log ERROR "Error finding zone: %s" (CloudError "throttled");
      Log WARNING "Encountered error deleting TXT record: %s"
          (listing_error "throttled")],
     inr tt).
Proof.
  exact (@del_txt_record_listing_cloud_error
           (sample_client [Yield "example.com"; Fail (CloudError "throttled")]
                          (inr sample_record) (inr tt) (inr tt))
           "_acme-challenge.example.com" "token-1" "throttled" eq_refl).
Defined.

Lemma del_txt_record_no_zone_witness :
  del_txt_record
    (sample_client sample_zones (inr sample_record) (inr tt) (inr tt))
    "_acme-challenge.example.org" "token-1"
  = ([ZonesList;
      Log WARNING "Encountered error deleting TXT record: %s"
          (no_zone_error "_acme-challenge.example.org")],
     inr tt).
Proof.
  apply (@del_txt_record_no_zone
           (sample_client sample_zones (inr sample_record) (inr tt) (inr tt))
           "_acme-challenge.example.org" "token-1"
           ["example.com"; "sub.example.com"] eq_refl).
  intros c [<-|[<-|[<-|[]]]] [H|[H|[]]]; discriminate.
Defined.

(* ================================================================== *)
(** ** Further properties of [add_txt_record] *)
(* ================================================================== *)

(** Property X6.  Whatever the remote service answers, [add_txt_record]
    never deletes and writes at most once: the calls that change the remote
    record sets are none, or the single write of one record set at the
    relative name in the discovered zone. *)
Theorem add_txt_record_mutations (self : _AzureClient)
  (domain record_content : string) (record_ttl : Z) :
  filter is_mutation
         (trace (add_txt_record self domain record_content record_ttl)) = [] \/
  exists zone r,
    outcome (_find_managed_zone self domain) = inr zone /\
    filter is_mutation
           (trace (add_txt_record self domain record_content record_ttl))
    = [RecordSetsCreateOrUpdate (resource_group self) zone
         (relative_record_name domain zone) "TXT" r].
Proof.
  destruct (find_managed_zone_cases self domain)
    as [(zone & H)|[(e & H & _)|(text & H)]];
    unfold add_txt_record; rewrite H; unfold_run.
  - unfold append_txt.
    split_answers; simpl;
      first [ now left | right; exists zone; eexists; split; reflexivity ].
  - left. now destruct e.
  - now left.
Qed.

(** Property X7.  If [add_txt_record] returns normally, then it listed the
    zones, fetched the record set, and wrote it once, the write was
    accepted, nothing was logged, and the record set written ends with the
    entry of the new value. *)
Theorem add_txt_record_success (self : _AzureClient)
  (domain record_content : string) (record_ttl : Z) :
  outcome (add_txt_record self domain record_content record_ttl) = inr tt ->
  exists zone old r,
    outcome (_find_managed_zone self domain) = inr zone /\
    txt_records r = old ++ [mkTxtRecord [record_content]] /\
    trace (add_txt_record self domain record_content record_ttl)
    = [ZonesList;
       RecordSetsGet (resource_group self) zone
                     (relative_record_name domain zone) "TXT";
       RecordSetsCreateOrUpdate (resource_group self) zone
                     (relative_record_name domain zone) "TXT" r] /\
    record_sets_create_or_update (dns_client self) (resource_group self) zone
      (relative_record_name domain zone) "TXT" r = inr tt.
Proof.
  destruct (find_managed_zone_cases self domain)
    as [(zone & H)|[(e & H & _)|(text & H)]];
    unfold add_txt_record; rewrite H; unfold_run.
  - unfold append_txt.
    destruct (record_sets_get _ _ _ _ _) as [e|record] eqn:Hget.
    + destruct e; simpl; try discriminate.
      destruct (record_sets_create_or_update _ _ _ _ _ _) as [e|[]] eqn:Hup;
        [destruct e; simpl; discriminate|].
      intros _. exists zone, [], (mkRecordSet record_ttl
                                    [mkTxtRecord [record_content]]).
      repeat split. exact Hup.
    + simpl.
      destruct (record_sets_create_or_update _ _ _ _ _ _) as [e|[]] eqn:Hup;
        [destruct e; simpl; discriminate|].
      intros _. exists zone, (txt_records record).
      eexists. split; [reflexivity|]. split; [|split; [reflexivity|exact Hup]].
      reflexivity.
  - destruct e; simpl; discriminate.
  - simpl. discriminate.
Qed.

Lemma add_txt_record_success_witness :
  exists zone old r,
    outcome (_find_managed_zone
               (sample_client sample_zones (inr sample_record)
                              (inr tt) (inr tt))
               "_acme-challenge.example.com") = inr zone /\
    txt_records r = old ++ [mkTxtRecord ["token-3"]] /\
    trace (add_txt_record
             (sample_client sample_zones (inr sample_record) (inr tt) (inr tt))
             "_acme-challenge.example.com" "token-3" 60)
    = [ZonesList;
       RecordSetsGet "certbot-rg" zone
         (relative_record_name "_acme-challenge.example.com" zone) "TXT";
       RecordSetsCreateOrUpdate "certbot-rg" zone
         (relative_record_name "_acme-challenge.example.com" zone) "TXT" r] /\
    inr tt = inr tt :> exn + unit.
Proof.
  exact (@add_txt_record_success
           (sample_client sample_zones (inr sample_record) (inr tt) (inr tt))
           "_acme-challenge.example.com" "token-3" 60 eq_refl).
Defined.

(** Property X8.  When fetching the record set fails with anything but
    not-found, [add_txt_record] writes nothing: it stops after the fetch.
    A [CloudError] is logged at error level and raised as the communication
    [PluginError]; any other exception is raised as it is. *)
Theorem add_txt_record_get_failure (self : _AzureClient)
  (domain record_content : string) (record_ttl : Z) (zone : string)
  (e : exn) :
  outcome (_find_managed_zone self domain) = inr zone ->
  record_sets_get (dns_client self) (resource_group self) zone
                  (relative_record_name domain zone) "TXT" = inl e ->
  is_ResourceNotFoundError e = false ->
  add_txt_record self domain record_content record_ttl
  = (ZonesList
     :: RecordSetsGet (resource_group self) zone
                      (relative_record_name domain zone) "TXT"
     :: (if is_CloudError e
         then [Log ERROR "Encountered error adding TXT record: %s" e]
         else []),
     inl (surfaced_by_add e)).
Proof.
  intros Hz Hget He. apply find_managed_zone_ok in Hz. destruct Hz as [Hz _].
  unfold add_txt_record. rewrite Hz. unfold_run. rewrite Hget.
  destruct e; try reflexivity. discriminate.
Qed.

Lemma add_txt_record_get_failure_witness :
  add_txt_record
    (sample_client sample_zones (inl (CloudError "throttled"))
                   (inr tt) (inr tt))
    "_acme-challenge.example.com" "token-1" 60
  = ([ZonesList;
      RecordSetsGet "certbot-rg" "example.com" "_acme-challenge" "TXT";
      Log ERROR "Encountered error adding TXT record: %s"
          (CloudError "throttled")],
     inl (communication_error "throttled")).
Proof.
  exact (@add_txt_record_get_failure
           (sample_client sample_zones (inl (CloudError "throttled"))
                          (inr tt) (inr tt))
           "_acme-challenge.example.com" "token-1" 60 "example.com"
           (CloudError "throttled") eq_refl eq_refl eq_refl).
Defined.

(** Property X9.  No [CloudError] leaves [add_txt_record]: it returns
    normally or raises an exception of another class. *)
Theorem add_txt_record_never_cloud_error (self : _AzureClient)
  (domain record_content : string) (record_ttl : Z) :
  outcome (add_txt_record self domain record_content record_ttl) = inr tt \/
  exists e,
    outcome (add_txt_record self domain record_content record_ttl) = inl e /\
    is_CloudError e = false.
Proof.
  destruct (outcome (add_txt_record self domain record_content record_ttl))
    as [e|[]] eqn:Ho; [right | now left].
  exists e. split; [reflexivity|].
  destruct e; try reflexivity.
  now destruct (add_txt_record_wraps_cloud_error self domain record_content
                                                 record_ttl Ho).
Qed.

Lemma sample_only_cloud_errors (fetched : exn + RecordSet) (text : string) :
  (forall e, fetched = inl e ->
             is_cloud_error e \/ exists t, e = ResourceNotFoundError t) ->
  only_cloud_errors
    (dns_client (sample_client [Yield "example.com"; Fail (CloudError text)]
                               fetched (inl (CloudError text))
                               (inl (CloudError text)))).
Proof.
  intros Hf. repeat split; simpl.
  - repeat constructor. now exists text.
  - intros _ _ _ _ e. apply Hf.
  - intros _ _ _ _ _ e [= <-]. now exists text.
  - intros _ _ _ _ e [= <-]. now exists text.
Qed.

Lemma add_txt_record_cloud_errors_only_witness :
  outcome (add_txt_record
             (sample_client [Yield "example.com"; Fail (CloudError "throttled")]
                            (inr sample_record) (inl (CloudError "throttled"))
                            (inl (CloudError "throttled")))
             "_acme-challenge.example.com" "token-1" 60) = inr tt \/
  exists msg,
    outcome (add_txt_record
               (sample_client
                  [Yield "example.com"; Fail (CloudError "throttled")]
                  (inr sample_record) (inl (CloudError "throttled"))
                  (inl (CloudError "throttled")))
               "_acme-challenge.example.com" "token-1" 60)
    = inl (PluginError msg).
Proof.
  apply (@add_txt_record_cloud_errors_only
           (sample_client [Yield "example.com"; Fail (CloudError "throttled")]
                          (inr sample_record) (inl (CloudError "throttled"))
                          (inl (CloudError "throttled")))
           "_acme-challenge.example.com" "token-1" 60).
  apply sample_only_cloud_errors. discriminate.
Defined.

(* ================================================================== *)
(** ** Further properties of [del_txt_record] *)
(* ================================================================== *)

Lemma del_txt_record_cloud_errors_only_witness :
  outcome (del_txt_record
             (sample_client [Yield "example.com"; Fail (CloudError "throttled")]
                            (inr sample_record) (inl (CloudError "throttled"))
                            (inl (CloudError "throttled")))
             "_acme-challenge.example.com" "token-1") = inr tt.
Proof.
  apply (@del_txt_record_cloud_errors_only
           (sample_client [Yield "example.com"; Fail (CloudError "throttled")]
                          (inr sample_record) (inl (CloudError "throttled"))
                          (inl (CloudError "throttled")))
           "_acme-challenge.example.com" "token-1").
  apply sample_only_cloud_errors. discriminate.
Defined.

(** Property X12.  Neither a [CloudError] nor a [PluginError] leaves
    [del_txt_record]: it returns normally or raises an exception of a class
    its handler does not name. *)
Theorem del_txt_record_never_caught_class (self : _AzureClient)
  (domain record_content : string) :
  outcome (del_txt_record self domain record_content) = inr tt \/
  exists e,
    outcome (del_txt_record self domain record_content) = inl e /\
    caught_on_remove e = false.
Proof.
  destruct (outcome (del_txt_record self domain record_content))
    as [e|[]] eqn:Ho; [right | now left].
  exists e. split; [reflexivity|].
  destruct (del_txt_record_swallows _ _ _ Ho) as [Hc Hp].
  destruct e; try reflexivity.
  - now destruct (Hc text).
  - now destruct (Hp msg).
Qed.

(** Property X13.  Whatever the remote service answers, [del_txt_record]
    changes the remote record sets at most once: by nothing, by one delete,
    or by one write, at the relative name in the discovered zone. *)
Theorem del_txt_record_mutations (self : _AzureClient)
  (domain record_content : string) :
  filter is_mutation (trace (del_txt_record self domain record_content)) = [] \/
  exists zone,
    outcome (_find_managed_zone self domain) = inr zone /\
    (filter is_mutation (trace (del_txt_record self domain record_content))
     = [RecordSetsDelete (resource_group self) zone
                         (relative_record_name domain zone) "TXT"] \/
     exists r,
       filter is_mutation (trace (del_txt_record self domain record_content))
       = [RecordSetsCreateOrUpdate (resource_group self) zone
            (relative_record_name domain zone) "TXT" r]).
Proof.
  destruct (find_managed_zone_cases self domain)
    as [(zone & H)|[(e & H & _)|(text & H)]];
    unfold del_txt_record; rewrite H; unfold_run.
  - unfold filter_txt.
    split_answers; simpl;
      first [ now left
            | right; exists zone; split; [reflexivity|]; now left
            | right; exists zone; split; [reflexivity|]; right;
              eexists; reflexivity ].
  - left. now destruct e.
  - now left.
Qed.

(** What [del_txt_record] does to the record sets, read back from its
    trace. *)
Lemma del_txt_record_mutation_origin (self : _AzureClient)
  (domain record_content : string) (ev : event) :
  In ev (trace (del_txt_record self domain record_content)) ->
  is_mutation ev = true ->
  exists zone record,
    outcome (_find_managed_zone self domain) = inr zone /\
    record_sets_get (dns_client self) (resource_group self) zone
                    (relative_record_name domain zone) "TXT" = inr record /\
    ev = if is_empty (filter (value_differs record_content)
                             (txt_records record))
         then RecordSetsDelete (resource_group self) zone
                (relative_record_name domain zone) "TXT"
         else RecordSetsCreateOrUpdate (resource_group self) zone
                (relative_record_name domain zone) "TXT"
                (mkRecordSet (ttl record)
                   (filter (value_differs record_content)
                           (txt_records record))).
Proof.
  intros Hin Hm.
  destruct (find_managed_zone_cases self domain)
    as [(zone & H)|[(e & H & _)|(text & H)]];
    revert Hin; unfold del_txt_record; rewrite H; unfold_run.
  - unfold filter_txt.
    destruct (record_sets_get _ _ _ _ _) as [e|record] eqn:Hget.
    + destruct e; simpl; intros Hin;
        repeat (destruct Hin as [<-|Hin]; [discriminate Hm|]);
        contradiction.
    + intros Hin. exists zone, record.
      split; [reflexivity|]. split; [exact Hget|].
      revert Hin. cbn [txt_records].
      destruct (is_empty _); split_answers; simpl; intros Hin;
        repeat (destruct Hin as [<-|Hin];
                [first [discriminate Hm | reflexivity]|]);
        contradiction.
  - destruct e; simpl; intros Hin;
      repeat (destruct Hin as [<-|Hin]; [discriminate Hm|]); contradiction.
  - simpl. intros Hin.
    repeat (destruct Hin as [<-|Hin]; [discriminate Hm|]); contradiction.
Qed.

(** Property X14.  Every record set [del_txt_record] writes is the fetched
    one with its TTL and, in their order, those of its entries whose value
    list is not the target alone; it is never empty. *)
Theorem del_txt_record_writes (self : _AzureClient)
  (domain record_content : string) (g z n t : string) (r : RecordSet) :
  In (RecordSetsCreateOrUpdate g z n t r)
     (trace (del_txt_record self domain record_content)) ->
  exists zone record first rest,
    outcome (_find_managed_zone self domain) = inr zone /\
    record_sets_get (dns_client self) (resource_group self) zone
                    (relative_record_name domain zone) "TXT" = inr record /\
    ttl r = ttl record /\
    txt_records r = filter (value_differs record_content) (txt_records record) /\
    txt_records r = first :: rest /\
    Forall (fun tr => value tr <> [record_content]) (txt_records r).
Proof.
  intros Hin.
  destruct (del_txt_record_mutation_origin _ _ _ _ Hin eq_refl)
    as (zone & record & Hz & Hget & Hev).
  destruct (filter (value_differs record_content) (txt_records record))
    as [|first rest] eqn:Hk; simpl in Hev; [discriminate Hev|].
  injection Hev as -> -> -> -> ->.
  exists zone, record, first, rest. simpl.
  split; [exact Hz|]. split; [exact Hget|]. split; [reflexivity|].
  split; [now rewrite Hk|]. split; [reflexivity|].
  rewrite <- Hk. apply Forall_forall. intros tr Htr.
  apply filter_In in Htr. now apply value_differs_spec.
Qed.

Lemma del_txt_record_writes_witness :
  exists zone record first rest,
    outcome (_find_managed_zone
               (sample_client sample_zones (inr sample_record)
                              (inr tt) (inr tt))
               "_acme-challenge.example.com") = inr zone /\
    inr sample_record = inr record :> exn + RecordSet /\
    3600%Z = ttl record /\
    [mkTxtRecord ["token-2"]]
    = filter (value_differs "token-1") (txt_records record) /\
    [mkTxtRecord ["token-2"]] = first :: rest /\
    Forall (fun tr => value tr <> ["token-1"]) [mkTxtRecord ["token-2"]].
Proof.
  apply (@del_txt_record_writes
           (sample_client sample_zones (inr sample_record) (inr tt) (inr tt))
           "_acme-challenge.example.com" "token-1"
           "certbot-rg" "example.com" "_acme-challenge" "TXT"
           (mkRecordSet 3600 [mkTxtRecord ["token-2"]])).
  simpl. auto.
Defined.

(** Property X15.  [del_txt_record] deletes a record set only when every
    entry it fetched holds the target value alone (which includes a record
    set fetched with no entry at all). *)
Theorem del_txt_record_deletes (self : _AzureClient)
  (domain record_content : string) (g z n t : string) :
  In (RecordSetsDelete g z n t)
     (trace (del_txt_record self domain record_content)) ->
  exists zone record,
    outcome (_find_managed_zone self domain) = inr zone /\
    (g, z, n, t) = (resource_group self, zone,
                    relative_record_name domain zone, "TXT") /\
    record_sets_get (dns_client self) (resource_group self) zone
                    (relative_record_name domain zone) "TXT" = inr record /\
    Forall (fun tr => value tr = [record_content]) (txt_records record).
Proof.
  intros Hin.
  destruct (del_txt_record_mutation_origin _ _ _ _ Hin eq_refl)
    as (zone & record & Hz & Hget & Hev).
  destruct (is_empty _) eqn:He; [|discriminate Hev].
  injection Hev as -> -> -> ->.
  exists zone, record. repeat split; try assumption.
  apply is_empty_spec in He. apply Forall_forall. intros tr Htr.
  destruct (list_eq_dec string_dec (value tr) [record_content]) as [E|E];
    [exact E|].
  assert (Hk : In tr (filter (value_differs record_content)
                             (txt_records record))).
  { apply filter_In. split; [exact Htr | now apply value_differs_spec]. }
  rewrite He in Hk. contradiction.
Qed.

Lemma del_txt_record_deletes_witness :
  exists zone record,
    outcome (_find_managed_zone
               (sample_client sample_zones
                  (inr (mkRecordSet 60 [mkTxtRecord ["token-1"]]))
                  (inr tt) (inr tt))
               "_acme-challenge.example.com") = inr zone /\
    ("certbot-rg", "example.com", "_acme-challenge", "TXT")
    = ("certbot-rg", zone,
       relative_record_name "_acme-challenge.example.com" zone, "TXT") /\
    inr (mkRecordSet 60 [mkTxtRecord ["token-1"]]) = inr record
      :> exn + RecordSet /\
    Forall (fun tr => value tr = ["token-1"]) (txt_records record).
Proof.
  apply (@del_txt_record_deletes
           (sample_client sample_zones
              (inr (mkRecordSet 60 [mkTxtRecord ["token-1"]]))
              (inr tt) (inr tt))
           "_acme-challenge.example.com" "token-1"
           "certbot-rg" "example.com" "_acme-challenge" "TXT").
  simpl. auto.
Defined.

Lemma filter_all {A : Type} (f : A -> bool) (l : list A) :
  Forall (fun x => f x = true) l -> filter f l = l.
Proof.
  induction 1 as [|x l Hx _ IH]; simpl; [reflexivity|].
  now rewrite Hx, IH.
Qed.

(** Property X16.  Removing a value that no entry of the fetched record set
    holds alone is not a no-op: when the record set has entries,
    [del_txt_record] writes it back exactly as it was fetched; when it has
    none, [del_txt_record] deletes it. *)
Theorem del_txt_record_absent_value (self : _AzureClient)
  (domain record_content zone : string) (record : RecordSet) :
  outcome (_find_managed_zone self domain) = inr zone ->
  record_sets_get (dns_client self) (resource_group self) zone
                  (relative_record_name domain zone) "TXT" = inr record ->
  Forall (fun tr => value tr <> [record_content]) (txt_records record) ->
  remote_calls (trace (del_txt_record self domain record_content))
  = [ZonesList;
     RecordSetsGet (resource_group self) zone
                   (relative_record_name domain zone) "TXT";
     match txt_records record with
     | [] => RecordSetsDelete (resource_group self) zone
               (relative_record_name domain zone) "TXT"
     | _ :: _ => RecordSetsCreateOrUpdate (resource_group self) zone
                   (relative_record_name domain zone) "TXT" record
     end].
Proof.
  intros Hz Hget Hall.
  rewrite (del_txt_record_found self domain record_content Hz Hget).
  rewrite filter_all.
  - destruct record as [record_ttl [|tr entries]]; reflexivity.
  - apply Forall_forall. intros tr Htr. apply value_differs_spec.
    rewrite Forall_forall in Hall. now apply Hall.
Qed.

Lemma del_txt_record_absent_value_witness :
  remote_calls
    (trace (del_txt_record
              (sample_client sample_zones (inr sample_record) (inr tt) (inr tt))
              "_acme-challenge.example.com" "token-9"))
  = [ZonesList;
     RecordSetsGet "certbot-rg" "example.com" "_acme-challenge" "TXT";
     RecordSetsCreateOrUpdate "certbot-rg" "example.com" "_acme-challenge"
       "TXT" sample_record].
Proof.
  apply (@del_txt_record_absent_value
           (sample_client sample_zones (inr sample_record) (inr tt) (inr tt))
           "_acme-challenge.example.com" "token-9" "example.com"
           sample_record eq_refl eq_refl).
  repeat constructor; discriminate.
Defined.

(** Property X17.  Removal after addition.  If the remote service answers
    the fetch of [del_txt_record] with a record set that [add_txt_record]
    wrote for the same name and value, then the removal drops the added
    entry together with every earlier entry holding that value alone: it
    writes back the remaining earlier entries under the TTL that was
    written, or deletes the record set when none remains (as when
    [add_txt_record] had created the record set). *)
Theorem del_txt_record_after_add (adding removing : _AzureClient)
  (domain record_content : string) (record_ttl : Z) (zone : string)
  (written : RecordSet) :
  In (RecordSetsCreateOrUpdate (resource_group adding) zone
        (relative_record_name domain zone) "TXT" written)
     (trace (add_txt_record adding domain record_content record_ttl)) ->
  outcome (_find_managed_zone removing domain) = inr zone ->
  record_sets_get (dns_client removing) (resource_group removing) zone
                  (relative_record_name domain zone) "TXT" = inr written ->
  exists earlier,
    txt_records written = earlier ++ [mkTxtRecord [record_content]] /\
    remote_calls (trace (del_txt_record removing domain record_content))
    = [ZonesList;
       RecordSetsGet (resource_group removing) zone
                     (relative_record_name domain zone) "TXT";
       match filter (value_differs record_content) earlier with
       | [] => RecordSetsDelete (resource_group removing) zone
                 (relative_record_name domain zone) "TXT"
       | kept => RecordSetsCreateOrUpdate (resource_group removing) zone
                   (relative_record_name domain zone) "TXT"
                   (mkRecordSet (ttl written) kept)
       end].
Proof.
  intros Hin Hz Hget.
  destruct (add_txt_record_writes _ _ _ _ _ _ _ _ _ Hin)
    as (_ & earlier & _ & Hw & _).
  exists earlier. split; [exact Hw|].
  rewrite (del_txt_record_found removing domain record_content Hz Hget).
  rewrite Hw, filter_app. simpl.
  assert (Hv : value_differs record_content (mkTxtRecord [record_content])
               = false).
  { unfold value_differs. cbn [value].
    destruct (list_eq_dec string_dec [record_content] [record_content])
      as [_|Hne]; [reflexivity | now destruct Hne]. }
  rewrite Hv, app_nil_r.
  now destruct (filter (value_differs record_content) earlier).
Qed.

Lemma del_txt_record_after_add_witness :
  exists earlier,
    [mkTxtRecord ["token-1"]; mkTxtRecord ["token-2"]; mkTxtRecord ["token-2"]]
    = earlier ++ [mkTxtRecord ["token-2"]] /\
    remote_calls
      (trace (del_txt_record
                (sample_client sample_zones
                   (inr (mkRecordSet 3600
                           [mkTxtRecord ["token-1"]; mkTxtRecord ["token-2"];
                            mkTxtRecord ["token-2"]]))
                   (inr tt) (inr tt))
                "_acme-challenge.example.com" "token-2"))
    = [ZonesList;
       RecordSetsGet "certbot-rg" "example.com" "_acme-challenge" "TXT";
       match filter (value_differs "token-2") earlier with
       | [] => RecordSetsDelete "certbot-rg" "example.com" "_acme-challenge"
                 "TXT"
       | kept => RecordSetsCreateOrUpdate "certbot-rg" "example.com"
                   "_acme-challenge" "TXT" (mkRecordSet 3600 kept)
       end].
Proof.
  apply (@del_txt_record_after_add
           (sample_client sample_zones (inr sample_record) (inr tt) (inr tt))
           (sample_client sample_zones
              (inr (mkRecordSet 3600
                      [mkTxtRecord ["token-1"]; mkTxtRecord ["token-2"];
                       mkTxtRecord ["token-2"]]))
              (inr tt) (inr tt))
           "_acme-challenge.example.com" "token-2" 60 "example.com"
           (mkRecordSet 3600
              [mkTxtRecord ["token-1"]; mkTxtRecord ["token-2"];
               mkTxtRecord ["token-2"]])).
  - simpl. auto.
  - reflexivity.
  - reflexivity.
Defined.

(* ================================================================== *)
(** ** Further properties of the relative record name *)
(* ================================================================== *)

(** Property X18.  The relative record name is made of as many leading
    labels of the fqdn as the fqdn has more labels than the zone; which
    labels the zone holds plays no part, so two zone names with equally
    many labels give the same name, and a zone with at least as many
    labels as the fqdn gives the empty name. *)
Theorem relative_record_name_by_label_count (domain zone : string) :
  relative_record_name domain zone
  = Py.join "." (firstn (length (Py.split "." domain)
                         - length (Py.split "." zone))
                        (Py.split "." domain)) /\
  (forall zone',
      length (Py.split "." zone') = length (Py.split "." zone) ->
      relative_record_name domain zone' = relative_record_name domain zone) /\
  (length (Py.split "." domain) <= length (Py.split "." zone) ->
   relative_record_name domain zone = EmptyString).
Proof.
  assert (Hform : forall z,
    relative_record_name domain z
    = Py.join "." (firstn (length (Py.split "." domain)
                           - length (Py.split "." z))
                          (Py.split "." domain))).
  { intros z. unfold relative_record_name, Py.len.
    rewrite slice_0_neg; [reflexivity|].
    destruct (Py.split "." z) eqn:E;
      [now apply split_not_nil in E | simpl; lia]. }
  split; [apply Hform|]. split.
  - intros zone' Hlen. now rewrite (Hform zone'), (Hform zone), Hlen.
  - intros Hle. rewrite Hform.
    replace (length (Py.split "." domain) - length (Py.split "." zone))
      with 0 by lia.
    reflexivity.
Qed.

(* ================================================================== *)
(** ** The authenticator: set-up, client construction, perform, cleanup *)
(* ================================================================== *)

(** Property X19.  [_setup_credentials] fails before touching anything
    exactly when the resource group is not set, or when neither the
    credentials option is set nor [AZURE_AUTH_LOCATION] is defined; the
    resource group is checked first, and each case has its own
    [PluginError]. *)
Theorem setup_credentials_fail_fast (h : Host) :
  (fst (_setup_credentials h) = [] <->
   conf_resource_group (config h) = None \/
   (conf_credentials (config h) = None /\
    Py.contains (environ h) "AZURE_AUTH_LOCATION" = false)) /\
  (conf_resource_group (config h) = None ->
   _setup_credentials h = ([], inl no_resource_group_error)) /\
  (forall g,
      conf_resource_group (config h) = Some g ->
      conf_credentials (config h) = None ->
      Py.contains (environ h) "AZURE_AUTH_LOCATION" = false ->
      _setup_credentials h = ([], inl no_credentials_error)).
Proof.
  unfold _setup_credentials.
  destruct (conf_resource_group (config h)) as [g|]; simpl.
  - destruct (conf_credentials (config h)) as [path|]; simpl.
    + split; [|split; [discriminate|discriminate]].
      destruct (_configure_file h _ _) as [e|c];
        [|destruct (validate_file_permissions h c)]; simpl;
        (split; [discriminate | intros [H|[H _]]; discriminate]).
    + destruct (Py.contains (environ h) "AZURE_AUTH_LOCATION") eqn:Henv; simpl.
      * split; [|split; [discriminate|discriminate]].
        destruct (_configure_file h _ _) as [e|c];
          [|destruct (validate_file_permissions h c)]; simpl;
          (split; [discriminate | intros [H|[_ H]]; discriminate]).
      * split; [|split; [discriminate | reflexivity]].
        split; [right; now split | reflexivity].
  - split; [|split; [reflexivity | discriminate]].
    split; [now left | reflexivity].
Qed.

(** Property X20.  When [_setup_credentials] succeeds, the resource group
    is set and left as it was, the credentials option was set or
    [AZURE_AUTH_LOCATION] was defined, the file was configured and then
    its permissions were checked, and the path that was checked is the one
    the configuration holds afterwards. *)
Theorem setup_credentials_success (h : Host) (after : Config) :
  snd (_setup_credentials h) = inr after ->
  exists g,
    conf_resource_group (config h) = Some g /\
    conf_resource_group after = Some g /\
    ((exists path, conf_credentials (config h) = Some path) \/
     Py.contains (environ h) "AZURE_AUTH_LOCATION" = true) /\
    _configure_file h "credentials"
                    "path to Azure DNS service account JSON file"
    = inr (conf_credentials after) /\
    validate_file_permissions h (conf_credentials after) = inr tt /\
    fst (_setup_credentials h)
    = [ConfigureFile "credentials"
                     "path to Azure DNS service account JSON file";
       ValidateFilePermissions (conf_credentials after)].
Proof.
  unfold _setup_credentials.
  destruct (conf_resource_group (config h)) as [g|]; simpl; [|discriminate].
  destruct (is_none (conf_credentials (config h))
            && negb (Py.contains (environ h) "AZURE_AUTH_LOCATION"))
    eqn:Hcheck; simpl; [discriminate|].
  destruct (_configure_file h _ _) as [e|c] eqn:Hc; simpl; [discriminate|].
  destruct (validate_file_permissions h c) as [e|[]] eqn:Hv; simpl;
    [discriminate|].
  intros [= <-]. exists g. simpl.
  split; [reflexivity|]. split; [reflexivity|].
  split; [|split; [reflexivity | split; [exact Hv | reflexivity]]].
  destruct (conf_credentials (config h)) as [path|]; [left; now exists path|].
  right. simpl in Hcheck.
  now destruct (Py.contains (environ h) "AZURE_AUTH_LOCATION").
Qed.

Lemma setup_credentials_success_witness :
  exists g,
    Some "certbot-rg" = Some g /\
    Some "certbot-rg" = Some g /\
    ((exists path, @None string = Some path) \/
     Py.contains ["HOME"; "AZURE_AUTH_LOCATION"] "AZURE_AUTH_LOCATION" = true) /\
    inr (Some "/etc/letsencrypt/azure.json")
    = inr (Some "/etc/letsencrypt/azure.json") :> exn + option string /\
    inr tt = inr tt :> exn + unit /\
    fst (_setup_credentials
           (sample_host (Some "certbot-rg") None
                        ["HOME"; "AZURE_AUTH_LOCATION"]))
    = [ConfigureFile "credentials"
                     "path to Azure DNS service account JSON file";
       ValidateFilePermissions (Some "/etc/letsencrypt/azure.json")].
Proof.
  exact (@setup_credentials_success
           (sample_host (Some "certbot-rg") None
                        ["HOME"; "AZURE_AUTH_LOCATION"])
           (mkConfig (Some "certbot-rg") (Some "/etc/letsencrypt/azure.json"))
           eq_refl).
Defined.

(** Property X21.  When [_AzureClient.__init__] succeeds, the credential
    file was read, it holds all six keys, the credential was built from the
    tenant, client, secret and authority entries, and the DNS client from
    that credential, the subscription entry, and the resource-manager
    endpoint entry, which serves both as base URL and, with [/.default]
    appended, as the only credential scope; the client keeps the resource
    group it was given. *)
Theorem azure_client_init_success (sdk : Sdk) (resource_group0 : string)
  (auth_path : option string) (azure_client : _AzureClient) :
  _AzureClient_init sdk resource_group0 auth_path = inr azure_client ->
  exists account tenant client secret auth subscription endpoint,
    load_json sdk auth_path = inr account /\
    account "tenantId" = Some tenant /\
    account "clientId" = Some client /\
    account "clientSecret" = Some secret /\
    account "activeDirectoryEndpointUrl" = Some auth /\
    account "subscriptionId" = Some subscription /\
    account "resourceManagerEndpointUrl" = Some endpoint /\
    ClientSecretCredential_init sdk
      (mkCredentialArgs tenant client secret auth) = None /\
    DnsManagementClient_init sdk
      (mkClientArgs (mkCredentialArgs tenant client secret auth)
                    subscription endpoint [(endpoint ++ "/.default")%string])
    = inr (dns_client azure_client) /\
    resource_group azure_client = resource_group0.
Proof.
  unfold _AzureClient_init, and_then, getitem.
  destruct (load_json sdk auth_path) as [e|account]; [discriminate|].
  destruct (account "tenantId") as [tenant|] eqn:E1; [|discriminate].
  destruct (account "clientId") as [client|] eqn:E2; [|discriminate].
  destruct (account "clientSecret") as [secret|] eqn:E3; [|discriminate].
  destruct (account "activeDirectoryEndpointUrl") as [auth|] eqn:E4;
    [|discriminate].
  destruct (ClientSecretCredential_init sdk _) as [e|] eqn:Ec; [discriminate|].
  destruct (account "subscriptionId") as [subscription|] eqn:E5;
    [|discriminate].
  destruct (account "resourceManagerEndpointUrl") as [endpoint|] eqn:E6;
    [|discriminate].
  destruct (DnsManagementClient_init sdk _) as [e|dns] eqn:Ed; [discriminate|].
  intros [= <-].
  exists account, tenant, client, secret, auth, subscription, endpoint.
  repeat split; assumption.
Qed.

Lemma azure_client_init_success_witness :
  exists account tenant client secret auth subscription endpoint,
    inr sample_account = inr account :> exn + (string -> option string) /\
    account "tenantId" = Some tenant /\
    account "clientId" = Some client /\
    account "clientSecret" = Some secret /\
    account "activeDirectoryEndpointUrl" = Some auth /\
    account "subscriptionId" = Some subscription /\
    account "resourceManagerEndpointUrl" = Some endpoint /\
    @None exn = None /\
    inr (sample_remote (inr sample_record))
    = inr (sample_remote (inr sample_record)) :> exn + DnsManagementClient /\
    "certbot-rg" = "certbot-rg".
Proof.
  exact (@azure_client_init_success
           (sample_sdk (inr sample_account) (sample_remote (inr sample_record)))
           "certbot-rg" (Some "/etc/letsencrypt/azure.json")
           (mkAzureClient "certbot-rg" (sample_remote (inr sample_record)))
           eq_refl).
Defined.

(** Property X22.  When the credential file is read and lacks one of the
    six keys, and the credential constructor does not raise,
    [_AzureClient.__init__] raises [KeyError] for the first key that is
    missing, in the order tenantId, clientId, clientSecret,
    activeDirectoryEndpointUrl, subscriptionId, resourceManagerEndpointUrl;
    keys beyond these six play no part. *)
Theorem azure_client_init_missing_key (sdk : Sdk) (resource_group0 : string)
  (auth_path : option string) (account : string -> option string)
  (key : string) :
  load_json sdk auth_path = inr account ->
  (forall args, ClientSecretCredential_init sdk args = None) ->
  find (fun k => is_none (account k)) account_keys = Some key ->
  _AzureClient_init sdk resource_group0 auth_path = inl (KeyError key).
Proof.
  intros Hl Hc Hf. unfold _AzureClient_init, and_then, getitem. rewrite Hl.
  unfold account_keys in Hf. simpl in Hf.
  destruct (account "tenantId"); simpl in Hf; [|now injection Hf as <-].
  destruct (account "clientId"); simpl in Hf; [|now injection Hf as <-].
  destruct (account "clientSecret"); simpl in Hf; [|now injection Hf as <-].
  destruct (account "activeDirectoryEndpointUrl"); simpl in Hf;
    [|now injection Hf as <-].
  rewrite Hc.
  destruct (account "subscriptionId"); simpl in Hf; [|now injection Hf as <-].
  destruct (account "resourceManagerEndpointUrl"); simpl in Hf;
    [discriminate Hf | now injection Hf as <-].
Qed.

Lemma azure_client_init_missing_key_witness :
  _AzureClient_init
    (sample_sdk (inr (fun k => if String.eqb k "clientSecret" then None
                               else sample_account k))
                (sample_remote (inr sample_record)))
    "certbot-rg" (Some "/etc/letsencrypt/azure.json")
  = inl (KeyError "clientSecret").
Proof.
  exact (@azure_client_init_missing_key
           (sample_sdk (inr (fun k => if String.eqb k "clientSecret" then None
                                      else sample_account k))
                       (sample_remote (inr sample_record)))
           "certbot-rg" (Some "/etc/letsencrypt/azure.json")
           (fun k => if String.eqb k "clientSecret" then None
                     else sample_account k)
           "clientSecret" eq_refl (fun _ => eq_refl) eq_refl).
Defined.

(** Property X23.  An exception raised while the client is built (reading
    the credential file, a missing key, a constructor of the SDK) leaves
    [_perform] and [_cleanup] as it is, whatever its class: the handler of
    [del_txt_record] does not cover it, so [_cleanup] raises too; no remote
    call is made and nothing is logged. *)
Theorem perform_cleanup_client_failure (sdk : Sdk) (resource_group0 : string)
  (credentials : option string) (domain validation_name validation : string)
  (e : exn) :
  _AzureClient_init sdk resource_group0 credentials = inl e ->
  _perform sdk resource_group0 credentials domain validation_name validation
  = ([], inl e) /\
  _cleanup sdk resource_group0 credentials domain validation_name validation
  = ([], inl e).
Proof.
  intros H. unfold _perform, _cleanup, _get_azure_client. rewrite H.
  split; reflexivity.
Qed.

Lemma perform_cleanup_client_failure_witness :
  _cleanup
    (sample_sdk (inl (PluginError (Literal "unreadable")))
                (sample_remote (inr sample_record)))
    "certbot-rg" (Some "/etc/letsencrypt/azure.json")
    "example.com" "_acme-challenge.example.com" "token-1"
  = ([], inl (PluginError (Literal "unreadable"))).
Proof.
  exact (proj2 (@perform_cleanup_client_failure
                  (sample_sdk (inl (PluginError (Literal "unreadable")))
                              (sample_remote (inr sample_record)))
                  "certbot-rg" (Some "/etc/letsencrypt/azure.json")
                  "example.com" "_acme-challenge.example.com" "token-1"
                  (PluginError (Literal "unreadable")) eq_refl)).
Defined.

Lemma azure_client_init_keeps_resource_group (sdk : Sdk)
  (resource_group0 : string) (auth_path : option string)
  (azure_client : _AzureClient) :
  _AzureClient_init sdk resource_group0 auth_path = inr azure_client ->
  resource_group azure_client = resource_group0.
Proof.
  unfold _AzureClient_init, and_then, getitem.
  destruct (load_json sdk auth_path) as [e|account]; [discriminate|].
  destruct (account "tenantId"); [|discriminate].
  destruct (account "clientId"); [|discriminate].
  destruct (account "clientSecret"); [|discriminate].
  destruct (account "activeDirectoryEndpointUrl"); [|discriminate].
  destruct (ClientSecretCredential_init sdk _); [discriminate|].
  destruct (account "subscriptionId"); [|discriminate].
  destruct (account "resourceManagerEndpointUrl"); [|discriminate].
  destruct (DnsManagementClient_init sdk _); [discriminate|].
  now intros [= <-].
Qed.

(** Property X24.  [_perform] works on the validation name, not on the
    domain it is handed: with the client built, the zone is discovered for
    the validation name, and a record set that is not found is created
    with the TTL of the authenticator, 60 seconds, and the validation as
    its only value. *)
Theorem perform_creates_record_set (sdk : Sdk) (resource_group0 : string)
  (credentials : option string) (domain validation_name validation : string)
  (azure_client : _AzureClient) (zone text : string) :
  _AzureClient_init sdk resource_group0 credentials = inr azure_client ->
  outcome (_find_managed_zone azure_client validation_name) = inr zone ->
  record_sets_get (dns_client azure_client) (resource_group azure_client) zone
                  (relative_record_name validation_name zone) "TXT"
  = inl (ResourceNotFoundError text) ->
  resource_group azure_client = resource_group0 /\
  remote_calls
    (trace (_perform sdk resource_group0 credentials domain validation_name
                     validation))
  = [ZonesList;
     RecordSetsGet resource_group0 zone
                   (relative_record_name validation_name zone) "TXT";
     RecordSetsCreateOrUpdate resource_group0 zone
       (relative_record_name validation_name zone) "TXT"
       (mkRecordSet 60 [mkTxtRecord [validation]])].
Proof.
  intros Hinit Hz Hget.
  assert (Hrg : resource_group azure_client = resource_group0).
  { exact (azure_client_init_keeps_resource_group _ _ _ Hinit). }
  split; [exact Hrg|].
  unfold _perform, _get_azure_client. rewrite Hinit.
  rewrite (add_txt_record_not_found azure_client validation_name validation
             Authenticator_ttl Hz Hget).
  now rewrite Hrg.
Qed.

Lemma perform_creates_record_set_witness :
  remote_calls
    (trace (_perform
              (sample_sdk (inr sample_account)
                 (sample_remote (inl (ResourceNotFoundError "Not Found"))))
              "certbot-rg" (Some "/etc/letsencrypt/azure.json")
              "www.example.com" "_acme-challenge.www.example.com" "token-1"))
  = [ZonesList;
     RecordSetsGet "certbot-rg" "example.com" "_acme-challenge.www" "TXT";
     RecordSetsCreateOrUpdate "certbot-rg" "example.com" "_acme-challenge.www"
       "TXT" (mkRecordSet 60 [mkTxtRecord ["token-1"]])].
Proof.
  exact (proj2 (@perform_creates_record_set
                  (sample_sdk (inr sample_account)
                     (sample_remote (inl (ResourceNotFoundError "Not Found"))))
                  "certbot-rg" (Some "/etc/letsencrypt/azure.json")
                  "www.example.com" "_acme-challenge.www.example.com" "token-1"
                  (mkAzureClient "certbot-rg"
                     (sample_remote (inl (ResourceNotFoundError "Not Found"))))
                  "example.com" "Not Found" eq_refl eq_refl eq_refl)).
Defined.

(* ================================================================== *)
(** ** The TTL of an existing record set *)
(* ================================================================== *)

(** Property X25.  For a record set that exists, the TTL handed to
    [add_txt_record] plays no part: the record set is written back under
    the TTL it was fetched with, and the whole run is the same for any two
    TTL arguments. *)
Theorem add_txt_record_existing_ignores_ttl (self : _AzureClient)
  (domain record_content zone : string) (record : RecordSet)
  (record_ttl other_ttl : Z) :
  outcome (_find_managed_zone self domain) = inr zone ->
  record_sets_get (dns_client self) (resource_group self) zone
                  (relative_record_name domain zone) "TXT" = inr record ->
  add_txt_record self domain record_content record_ttl
  = add_txt_record self domain record_content other_ttl /\
  forall g z n t r,
    In (RecordSetsCreateOrUpdate g z n t r)
       (trace (add_txt_record self domain record_content record_ttl)) ->
    ttl r = ttl record.
Proof.
  intros Hz Hget. split.
  - apply find_managed_zone_ok in Hz. destruct Hz as [Hz _].
    unfold add_txt_record. rewrite Hz. unfold_run. now rewrite Hget.
  - intros g z n t r Hin.
    pose proof (add_txt_record_found self domain record_content record_ttl
                                     Hz Hget) as Hcalls.
    assert (Hin' : In (RecordSetsCreateOrUpdate g z n t r)
                      (remote_calls
                         (trace (add_txt_record self domain record_content
                                                record_ttl)))).
    { apply remote_calls_In. now split. }
    rewrite Hcalls in Hin'. simpl in Hin'.
    destruct Hin' as [H|[H|[H|[]]]]; try discriminate H.
    now injection H as _ _ _ _ <-.
Qed.

Lemma add_txt_record_existing_ignores_ttl_witness :
  add_txt_record
    (sample_client sample_zones (inr sample_record) (inr tt) (inr tt))
    "_acme-challenge.example.com" "token-3" 60
  = add_txt_record
      (sample_client sample_zones (inr sample_record) (inr tt) (inr tt))
      "_acme-challenge.example.com" "token-3" 300.
Proof.
  exact (proj1 (@add_txt_record_existing_ignores_ttl
                  (sample_client sample_zones (inr sample_record)
                                 (inr tt) (inr tt))
                  "_acme-challenge.example.com" "token-3" "example.com"
                  sample_record 60%Z 300%Z eq_refl eq_refl)).
Defined.
